(** * check_knots_spam: the Knots spam-filter checker, embedded and verified

    A shallow embedding of [check_knots_spam.py]: the script classifier
    [is_standard_script], the dust test [is_dust], the RPC helpers
    ([get_transaction_fee], [get_ancestor_count], ...), the overlay detector
    [contains_non_bitcoin_protocol] and the evaluator [check_standard_tx]
    with its thirteen numbered checks.

    Python values are modelled as follows.
    - [bytes] and [CScript] are lists of [Byte.byte]; [script[i]] is a
      lookup that raises [IndexError] out of range.
    - [int] is [Z].  True division of two ints yields a binary64 [float],
      correctly rounded (ties to even), as CPython computes it.
    - Exceptions are results [Exn e]; printing and RPC requests are events
      collected in a trace.
    - The functions of python-bitcoinlib the program calls on transactions
      and scripts are fields of a [Codec]; the answers of the node behind
      [rpc_connection] are fields of a [Node]. *)

From Stdlib Require Import ZArith QArith List String Ascii Bool Lia.
From Stdlib Require Strings.Byte.
Import ListNotations.

Local Open Scope Z_scope.

(** ** Python results: a value or a raised exception *)

Inductive exn : Type :=
| IndexError
| TypeError
| ZeroDivisionError
| OverflowError
| AttributeError.

Inductive res (A : Type) : Type :=
| Val (a : A)
| Exn (e : exn).

Arguments Val {A} a.
Arguments Exn {A} e.

Definition res_bind {A B : Type} (r : res A) (k : A -> res B) : res B :=
  match r with
  | Val a => k a
  | Exn e => Exn e
  end.

Declare Scope res_scope.
Delimit Scope res_scope with res.
Notation "x <- r ;; k" := (res_bind r (fun x => k))
  (at level 61, r at next level, right associativity) : res_scope.

(** Python's short-circuit [and] on boolean operands: the right operand is
    not evaluated (so cannot raise) when the left one is false. *)
Definition py_and (a b : res bool) : res bool :=
  res_bind a (fun x => if x then b else Val false).

Notation "a &&& b" := (py_and a b) (at level 40, left associativity) : res_scope.

(** ** Bytes and scripts *)

Definition byte : Type := Byte.byte.
Definition bytes : Type := list byte.

Definition len {A : Type} (l : list A) : Z := Z.of_nat (List.length l).

(** [script[i]] for a literal index [i >= 0]. *)
Definition getitem (script : bytes) (i : nat) : res byte :=
  match nth_error script i with
  | Some b => Val b
  | None => Exn IndexError
  end.

(** [script[i] == op] *)
Definition item_is (script : bytes) (i : nat) (op : byte) : res bool :=
  res_bind (getitem script i) (fun b => Val (Byte.eqb b op)).

(** [CScript(b)] keeps the bytes it is given. *)
Definition CScript (b : bytes) : bytes := b.

(** Opcodes of [bitcoin.core.script]. *)
Definition OP_DUP : byte := Byte.x76.
Definition OP_HASH160 : byte := Byte.xa9.
Definition OP_EQUAL : byte := Byte.x87.
Definition OP_EQUALVERIFY : byte := Byte.x88.
Definition OP_CHECKSIG : byte := Byte.xac.
Definition OP_RETURN : byte := Byte.x6a.

(** ** Configuration constants *)

Definition MAX_STANDARD_TX_WEIGHT : Z := 400000.
Definition MAX_STANDARD_SCRIPTSIG_SIZE : Z := 1650.
Definition DUST_RELAY_TX_FEE : Z := 3000.
Definition DEFAULT_BYTES_PER_SIGOP : Z := 20.
Definition MAX_UNCONFIRMED_ANCESTORS : Z := 25.
Definition MAX_ANCESTOR_SIZE_KB : Z := 101.
Definition MAX_DESCENDANT_COUNT : Z := 25.
Definition MAX_DESCENDANT_SIZE_KB : Z := 101.
Definition MIN_BYTES_PER_SIGOP : Z := 20.

(** ** The script classifier *)

Section Classifier.
Local Open Scope res_scope.

(** The three templates tested by [is_standard_script], in source order. *)
Definition matches_p2pkh (script : bytes) : res bool :=
  Val (len script =? 25) &&&
  item_is script 0 OP_DUP &&&
  item_is script 1 OP_HASH160 &&&
  item_is script 2 Byte.x14 &&&
  item_is script 23 OP_EQUALVERIFY &&&
  item_is script 24 OP_CHECKSIG.

Definition matches_p2sh (script : bytes) : res bool :=
  Val (len script =? 23) &&&
  item_is script 0 OP_HASH160 &&&
  item_is script 1 Byte.x14 &&&
  item_is script 22 OP_EQUALVERIFY.

Definition matches_op_return (script : bytes) : res bool :=
  Val (len script >? 0) &&& item_is script 0 OP_RETURN.

Definition is_standard_script (script : bytes) : res bool :=
  p2pkh <- matches_p2pkh script ;;
  if p2pkh then Val true else
  p2sh <- matches_p2sh script ;;
  if p2sh then Val true else
  data <- matches_op_return script ;;
  if data then Val true else
  Val false.

(** The four return sites of [is_standard_script], named as the
    specification names them. *)
Inductive ScriptKind : Type :=
| PayToPubkeyHash
| PayToScriptHash
| DataCarrier
| Unrecognized.

(** [classify] follows [is_standard_script] branch by branch and reports
    which [return] is taken. *)
Definition classify (script : bytes) : res ScriptKind :=
  p2pkh <- matches_p2pkh script ;;
  if p2pkh then Val PayToPubkeyHash else
  p2sh <- matches_p2sh script ;;
  if p2sh then Val PayToScriptHash else
  data <- matches_op_return script ;;
  if data then Val DataCarrier else
  Val Unrecognized.

(** The boolean [is_standard_script] returns at each return site. *)
Definition recognised (k : ScriptKind) : bool :=
  match k with
  | Unrecognized => false
  | _ => true
  end.

End Classifier.

(** Canonical scripts built from a 20-byte hash. *)
Definition p2pkh_script (h : bytes) : bytes :=
  [OP_DUP; OP_HASH160; Byte.x14] ++ h ++ [OP_EQUALVERIFY; OP_CHECKSIG].

Definition p2sh_script (h : bytes) : bytes :=
  [OP_HASH160; Byte.x14] ++ h ++ [OP_EQUAL].

(** ** Python floats produced by [int / int]

    A finite binary64 value is kept as a pair [mant * 2 ^ expo].  CPython's
    true division of two ints returns the double nearest to the exact
    quotient, ties going to the even mantissa; it raises
    [ZeroDivisionError] on a zero divisor and [OverflowError] when the
    rounded quotient does not fit a double. *)

Record float : Type := { mant : Z; expo : Z }.

(** Nearest integer to [a / b] for [b > 0], ties to even. *)
Definition round_half_even (a b : Z) : Z :=
  let q := a / b in
  match 2 * (a mod b) ?= b with
  | Lt => q
  | Gt => q + 1
  | Eq => if Z.even q then q else q + 1
  end.

(** [a / b < 2 ^ e], for positive [a] and [b] and any integer [e]. *)
Definition below_pow2 (a b e : Z) : bool :=
  if 0 <=? e then a <? b * 2 ^ e else a * 2 ^ (- e) <? b.

(** The exponent [e] with [2 ^ e <= a / b < 2 ^ (e + 1)], for positive
    [a] and [b]. *)
Definition binade (a b : Z) : Z :=
  let e := Z.log2 a - Z.log2 b in
  if below_pow2 a b e then e - 1 else e.

(** [a / b] on Python ints. *)
Definition int_truediv (a b : Z) : res float :=
  if b =? 0 then Exn ZeroDivisionError
  else if a =? 0 then Val {| mant := 0; expo := 0 |}
  else
    let a' := Z.abs a in
    let b' := Z.abs b in
    let s := Z.max (binade a' b' - 52) (-1074) in
    let m := if 0 <=? s then round_half_even a' (b' * 2 ^ s)
             else round_half_even (a' * 2 ^ (- s)) b' in
    if (0 <=? s) && (2 ^ 1024 <=? m * 2 ^ s) then Exn OverflowError
    else Val {| mant := Z.sgn a * Z.sgn b * m; expo := s |}.

(** [n < f] for an int [n] and a float [f]: Python compares the two
    exactly. *)
Definition int_lt_float (n : Z) (f : float) : bool :=
  if 0 <=? expo f then n <? mant f * 2 ^ expo f
  else n * 2 ^ (- expo f) <? mant f.

(** The rational a float denotes. *)
Definition float_value (f : float) : Q :=
  if 0 <=? expo f then inject_Z (mant f * 2 ^ expo f)
  else Qmake (mant f) (Z.to_pos (2 ^ (- expo f))).

(** ** Decimals

    [Decimal(n)] of an int is exact.  [Decimal.__truediv__] accepts ints
    and Decimals only: with a float divisor both operands decline and
    Python raises [TypeError]. *)

Definition Decimal : Type := Q.

Definition Decimal_of_int (n : Z) : Decimal := inject_Z n.

Definition decimal_truediv_float (d : Decimal) (f : float) : res Decimal :=
  Exn TypeError.

(** [d < f] for a Decimal and a float is an exact comparison. *)
Definition decimal_lt_float (d : Decimal) (f : float) : bool :=
  match Qcompare d (float_value f) with
  | Lt => true
  | _ => false
  end.

(** The float literal [0.00001000]. *)
Definition MIN_FEE_RATE_LITERAL : float :=
  {| mant := 5902958103587057; expo := -69 |}.

(** ** Transactions *)

(** [txin.prevout]: [hash] and [n]. *)
Record COutPoint : Type := { prevout_hash : bytes; prevout_n : nat }.

Record CTxIn : Type := { prevout : COutPoint; scriptSig : bytes; nSequence : Z }.

Record CTxOut : Type := { nValue : Z; scriptPubKey : bytes }.

Record CTransaction : Type :=
  { nVersion : Z; vin : list CTxIn; vout : list CTxOut; nLockTime : Z }.

(** The functions of python-bitcoinlib the program relies on; they belong
    to the transaction codec, not to this program.  [serialize] and
    [GetHash] are methods the library provides.  What the other five calls
    do depends on the installed library: a call may answer or raise, and a
    method the library lacks raises [AttributeError]. *)
Record Codec : Type :=
  { serialize : CTxOut -> bytes;
    get_weight : CTransaction -> res Z;
    get_vsize : CTransaction -> res Z;
    GetHash : CTransaction -> bytes;
    is_opreturn : bytes -> res bool;
    is_bare_pubkey : bytes -> res bool;
    is_bare_multisig : bytes -> res bool }.

(** ** Dust *)

Definition is_dust (lib : Codec) (txout : CTxOut) (dust_relay_fee : Z) : res bool :=
  let size := len (serialize lib txout) in
  res_bind (int_truediv (size * dust_relay_fee) 1000) (fun dust_threshold =>
  Val (int_lt_float (nValue txout) dust_threshold)).

(** The exact threshold [size * dust_relay_fee / 1000] as a rational. *)
Definition dust_threshold_exact (lib : Codec) (txout : CTxOut) (dust_relay_fee : Z) : Q :=
  Qmake (len (serialize lib txout) * dust_relay_fee) 1000.

(** ** Fee rate

    Line 162, [fee_rate = Decimal(fee) / (weight / 4)], on an int fee and an
    int weight: [weight / 4] is a float, and the Decimal is then divided by
    that float. *)
Definition fee_rate (fee weight : Z) : res Decimal :=
  res_bind (int_truediv weight 4) (fun quarter =>
  decimal_truediv_float (Decimal_of_int fee) quarter).

(** ** Effects: printing and RPC requests *)

Inductive rpc_request : Type :=
| getrawtransaction_request (txid : string)
| getmempoolentry_request (txid : string).

Inductive event : Type :=
| Printed (line : string)
| Requested (r : rpc_request).

(** A computation yields a result and the events it caused, in order. *)
Definition M (A : Type) : Type := (res A * list event)%type.

Definition ret {A : Type} (a : A) : M A := (Val a, []).

Definition raise {A : Type} (e : exn) : M A := (Exn e, []).

Definition bind {A B : Type} (m : M A) (k : A -> M B) : M B :=
  match m with
  | (Val a, t) => let (r, t') := k a in (r, t ++ t')
  | (Exn e, t) => (Exn e, t)
  end.

Definition lift {A : Type} (r : res A) : M A := (r, []).

Definition print (line : string) : M unit := (Val tt, [Printed line]).

Definition request (r : rpc_request) : M unit := (Val tt, [Requested r]).

Definition result {A : Type} (m : M A) : res A := fst m.

Definition trace {A : Type} (m : M A) : list event := snd m.

Declare Scope M_scope.
Delimit Scope M_scope with M.
Notation "x <- m ;; k" := (bind m (fun x => k))
  (at level 61, m at next level, right associativity) : M_scope.
Notation "m ;; k" := (bind m (fun _ => k))
  (at level 61, right associativity) : M_scope.

(** ** The node behind [rpc_connection] *)

(** An RPC call answers or raises [JSONRPCException]. *)
Inductive rpc_reply (A : Type) : Type :=
| Reply (a : A)
| JSONRPCException (message : string).

Arguments Reply {A} a.
Arguments JSONRPCException {A} message.

Record MempoolEntry : Type :=
  { ancestorcount : Z; ancestorsize : Z; descendantcount : Z; descendantsize : Z }.

(** [getrawtransaction] answers with the transaction its ['hex'] field
    decodes to.  A call that fails otherwise than with [JSONRPCException],
    or an answer that does not decode, is outside this interface. *)
Record Node : Type :=
  { getrawtransaction : string -> rpc_reply CTransaction;
    getmempoolentry : string -> rpc_reply MempoolEntry }.

(** ** [bytes.hex()] and [needle in haystack] *)

Definition hex_digit (d : N) : ascii :=
  if (d <? 10)%N then ascii_of_N (48 + d) else ascii_of_N (87 + d).

Fixpoint hex (b : bytes) : string :=
  match b with
  | [] => EmptyString
  | x :: rest =>
      let v := Byte.to_N x in
      String (hex_digit (v / 16)%N) (String (hex_digit (v mod 16)%N) (hex rest))
  end.

Fixpoint starts_with (needle haystack : bytes) : bool :=
  match needle, haystack with
  | [], _ => true
  | _ :: _, [] => false
  | x :: needle', y :: haystack' => Byte.eqb x y && starts_with needle' haystack'
  end.

Fixpoint bytes_contains (needle haystack : bytes) : bool :=
  starts_with needle haystack ||
  match haystack with
  | [] => false
  | _ :: haystack' => bytes_contains needle haystack'
  end.

(** [b"Omni"] and [b"RSK"] *)
Definition OMNI_MARKER : bytes := [Byte.x4f; Byte.x6d; Byte.x6e; Byte.x69].
Definition RSK_MARKER : bytes := [Byte.x52; Byte.x53; Byte.x4b].

(** ** Verdicts

    [check_standard_tx] reports a rejection by printing a line and
    returning [False].  The thirteen lines, named as the specification
    names the reasons. *)

Inductive Reason : Type :=
| UnrecognizedScript
| PolicyDisabled
| OverlayProtocolDetected
| FeeRateTooLow
| WeightExceeded
| ScriptSigTooSmall
| TooManyAncestors
| AncestorSizeTooLarge
| TooManyDescendants
| DescendantSizeTooLarge
| BarePubkey
| BareMultisig
| ScriptTooLarge.

Definition rejection_line (r : Reason) : string :=
  match r with
  | UnrecognizedScript => "Rejected: Unrecognised receiver script"
  | PolicyDisabled => "Rejected: Parasite transaction"
  | OverlayProtocolDetected =>
      "Rejected: Transaction contains non-Bitcoin token/asset overlay protocol"
  | FeeRateTooLow => "Rejected: Low fee rate"
  | WeightExceeded => "Rejected: Adjusted vsize exceeds weight limit due to SigOps"
  | ScriptSigTooSmall =>
      "Rejected: Fewer than minimum bytes per potentially-executed SigOp"
  | TooManyAncestors => "Rejected: Too many unconfirmed ancestors"
  | AncestorSizeTooLarge => "Rejected: Ancestor size too large"
  | TooManyDescendants => "Rejected: Too many unconfirmed descendants"
  | DescendantSizeTooLarge => "Rejected: Descendant size too large"
  | BarePubkey => "Rejected: Bare/exposed public key"
  | BareMultisig => "Rejected: Bare/exposed multisig script"
  | ScriptTooLarge => "Rejected: Smart contract code too large"
  end.

(** What the caller of [check_standard_tx] observes. *)
Inductive Verdict : Type :=
| Accept
| Reject (r : Reason).

(** A numbered check of [check_standard_tx] either makes the function
    return ([Some b]) or lets control reach the next check ([None]). *)
Definition check : Type := M (option bool).

Definition proceed : check := ret None.

Definition return_ (b : bool) : check := ret (Some b).

Definition reject (r : Reason) : check :=
  bind (print (rejection_line r)) (fun _ => return_ false).

Definition and_then (c1 c2 : check) : check :=
  bind c1 (fun r =>
    match r with
    | Some b => ret (Some b)
    | None => c2
    end).

Notation "c1 >>> c2" := (and_then c1 c2) (at level 62, right associativity) : M_scope.

(** The run of [check_standard_tx] that accepts, and the run that rejects
    for reason [r]: one printed line, [False] returned, nothing else. *)
Definition run_of (v : Verdict) : M bool :=
  match v with
  | Accept => (Val true, [])
  | Reject r => (Val false, [Printed (rejection_line r)])
  end.

(** [for x in xs: body], where the body may return from the function. *)
Fixpoint for_each {A : Type} (xs : list A) (body : A -> check) : check :=
  match xs with
  | [] => proceed
  | x :: rest => and_then (body x) (for_each rest body)
  end.

(** The checks followed by a final [return b]. *)
Definition or_return (c : check) (b : bool) : M bool :=
  bind c (fun r =>
    match r with
    | Some b' => ret b'
    | None => ret b
    end).

(** [sum(...)] of ints, left to right from 0. *)
Definition sum (l : list Z) : Z := fold_left Z.add l 0.

(** ** The program *)

Section Program.
Variable lib : Codec.
Variable rpc_connection : Node.

Local Open Scope string_scope.
Local Open Scope M_scope.
Local Open Scope Z_scope.

(** The loop of [get_transaction_fee]: the running [total_input_value],
    or [None] when the function returned [None] from the handler. *)
Fixpoint total_input_value_from (inputs : list CTxIn) (total_input_value : Z)
  : M (option Z) :=
  match inputs with
  | [] => ret (Some total_input_value)
  | txin :: rest =>
      let txid := hex (prevout_hash (prevout txin)) in
      request (getrawtransaction_request txid) ;;
      match getrawtransaction rpc_connection txid with
      | JSONRPCException e =>
          print ("Error fetching previous transaction: " ++ e) ;;
          ret None
      | Reply prev_tx =>
          match nth_error (vout prev_tx) (prevout_n (prevout txin)) with
          | None => raise IndexError
          | Some prev_out =>
              total_input_value_from rest (total_input_value + nValue prev_out)
          end
      end
  end.

Definition get_transaction_fee (tx : CTransaction) : M (option Z) :=
  total <- total_input_value_from (vin tx) 0 ;;
  match total with
  | None => ret None
  | Some total_input_value =>
      let total_output_value := sum (map nValue (vout tx)) in
      ret (Some (total_input_value - total_output_value))
  end.

Definition get_ancestor_count (txid : string) : M Z :=
  request (getmempoolentry_request txid) ;;
  match getmempoolentry rpc_connection txid with
  | Reply mempool_entry => ret (ancestorcount mempool_entry)
  | JSONRPCException e => print ("Error fetching ancestor count: " ++ e) ;; ret 0
  end.

Definition get_ancestor_size (txid : string) : M Z :=
  request (getmempoolentry_request txid) ;;
  match getmempoolentry rpc_connection txid with
  | Reply mempool_entry => ret (ancestorsize mempool_entry)
  | JSONRPCException e => print ("Error fetching ancestor size: " ++ e) ;; ret 0
  end.

Definition get_descendant_count (txid : string) : M Z :=
  request (getmempoolentry_request txid) ;;
  match getmempoolentry rpc_connection txid with
  | Reply mempool_entry => ret (descendantcount mempool_entry)
  | JSONRPCException e => print ("Error fetching descendant count: " ++ e) ;; ret 0
  end.

Definition get_descendant_size (txid : string) : M Z :=
  request (getmempoolentry_request txid) ;;
  match getmempoolentry rpc_connection txid with
  | Reply mempool_entry => ret (descendantsize mempool_entry)
  | JSONRPCException e => print ("Error fetching descendant size: " ++ e) ;; ret 0
  end.

Fixpoint overlay_marker_in (outputs : list CTxOut) : M bool :=
  match outputs with
  | [] => ret false
  | txout :: rest =>
      let script := CScript (scriptPubKey txout) in
      opreturn <- lift (is_opreturn lib script) ;;
      if opreturn
      then if bytes_contains OMNI_MARKER script || bytes_contains RSK_MARKER script
           then print (rejection_line OverlayProtocolDetected) ;; ret true
           else overlay_marker_in rest
      else overlay_marker_in rest
  end.

Definition contains_non_bitcoin_protocol (tx : CTransaction) : M bool :=
  overlay_marker_in (vout tx).

(** *** The thirteen checks of [check_standard_tx] *)

(** 1. Unrecognised receiver scripts *)
Definition check_receiver_scripts (tx : CTransaction) : check :=
  for_each (vout tx) (fun txout =>
    let script := CScript (scriptPubKey txout) in
    standard <- lift (is_standard_script script) ;;
    if negb standard then reject UnrecognizedScript else proceed).

(** 2. Parasite transactions *)
Definition check_parasites : check :=
  let reject_parasites := true in
  if reject_parasites then reject PolicyDisabled else proceed.

(** 3. Non-Bitcoin token/asset overlay protocols *)
Definition check_overlay (tx : CTransaction) : check :=
  found <- contains_non_bitcoin_protocol tx ;;
  if found then return_ false else proceed.

(** 4. Fee rate *)
Definition check_fee_rate (tx : CTransaction) : check :=
  fee <- get_transaction_fee tx ;;
  match fee with
  | None => return_ false
  | Some fee =>
      weight <- lift (get_weight lib tx) ;;
      rate <- lift (fee_rate fee weight) ;;
      if decimal_lt_float rate MIN_FEE_RATE_LITERAL
      then reject FeeRateTooLow
      else proceed
  end.

(** 5. Size adjusted for SigOps *)
Definition check_adjusted_vsize (tx : CTransaction) : check :=
  let total_sigops :=
    sum (map (fun txin => len (scriptSig txin) / DEFAULT_BYTES_PER_SIGOP) (vin tx)) in
  vsize <- lift (get_vsize lib tx) ;;
  let adjusted_vsize := vsize + total_sigops * DEFAULT_BYTES_PER_SIGOP in
  if adjusted_vsize >? MAX_STANDARD_TX_WEIGHT
  then reject WeightExceeded
  else proceed.

(** 6. Minimum bytes per SigOp *)
Definition check_bytes_per_sigop (tx : CTransaction) : check :=
  for_each (vin tx) (fun txin =>
    if len (scriptSig txin) <? MIN_BYTES_PER_SIGOP
    then reject ScriptSigTooSmall
    else proceed).

(** 7. Ancestor count *)
Definition check_ancestor_count (tx : CTransaction) : check :=
  ancestor_count <- get_ancestor_count (hex (GetHash lib tx)) ;;
  if ancestor_count >=? MAX_UNCONFIRMED_ANCESTORS
  then reject TooManyAncestors
  else proceed.

(** 8. Ancestor size *)
Definition check_ancestor_size (tx : CTransaction) : check :=
  ancestor_size <- get_ancestor_size (hex (GetHash lib tx)) ;;
  if ancestor_size >? MAX_ANCESTOR_SIZE_KB * 1000
  then reject AncestorSizeTooLarge
  else proceed.

(** 9. Descendant count *)
Definition check_descendant_count (tx : CTransaction) : check :=
  descendant_count <- get_descendant_count (hex (GetHash lib tx)) ;;
  if descendant_count >=? MAX_DESCENDANT_COUNT
  then reject TooManyDescendants
  else proceed.

(** 10. Descendant size *)
Definition check_descendant_size (tx : CTransaction) : check :=
  descendant_size <- get_descendant_size (hex (GetHash lib tx)) ;;
  if descendant_size >? MAX_DESCENDANT_SIZE_KB * 1000
  then reject DescendantSizeTooLarge
  else proceed.

(** Checks 7 to 10 in sequence. *)
Definition topology_checks (tx : CTransaction) : check :=
  check_ancestor_count tx >>>
  check_ancestor_size tx >>>
  check_descendant_count tx >>>
  check_descendant_size tx.

(** 11. Bare/exposed public keys *)
Definition check_bare_pubkey (tx : CTransaction) : check :=
  for_each (vout tx) (fun txout =>
    let script := CScript (scriptPubKey txout) in
    bare <- lift (is_bare_pubkey lib script) ;;
    if bare then reject BarePubkey else proceed).

(** 12. Bare/exposed multisig scripts *)
Definition check_bare_multisig (tx : CTransaction) : check :=
  for_each (vout tx) (fun txout =>
    let script := CScript (scriptPubKey txout) in
    bare <- lift (is_bare_multisig lib script) ;;
    if bare then reject BareMultisig else proceed).

(** 13. Script size limit *)
Definition check_script_size (tx : CTransaction) : check :=
  for_each (vout tx) (fun txout =>
    if len (scriptPubKey txout) >? MAX_STANDARD_SCRIPTSIG_SIZE
    then reject ScriptTooLarge
    else proceed).

Definition check_standard_tx (tx : CTransaction) : M bool :=
  or_return
    (check_receiver_scripts tx >>>
     check_parasites >>>
     check_overlay tx >>>
     check_fee_rate tx >>>
     check_adjusted_vsize tx >>>
     check_bytes_per_sigop tx >>>
     topology_checks tx >>>
     check_bare_pubkey tx >>>
     check_bare_multisig tx >>>
     check_script_size tx)
    true.

(** [check_standard_tx] with the local [reject_parasites] of check 2 taken
    as an argument; the source fixes it to [True]. *)
Definition check_parasites_with (reject_parasites : bool) : check :=
  if reject_parasites then reject PolicyDisabled else proceed.

Definition check_standard_tx_with (reject_parasites : bool) (tx : CTransaction) : M bool :=
  or_return
    (check_receiver_scripts tx >>>
     check_parasites_with reject_parasites >>>
     check_overlay tx >>>
     check_fee_rate tx >>>
     check_adjusted_vsize tx >>>
     check_bytes_per_sigop tx >>>
     topology_checks tx >>>
     check_bare_pubkey tx >>>
     check_bare_multisig tx >>>
     check_script_size tx)
    true.

End Program.

(** [c] returns [False] right after printing the line of reason [r]. *)
Definition rejects_with (c : check) (r : Reason) : Prop :=
  result c = Val (Some false) /\
  exists before, trace c = before ++ [Printed (rejection_line r)].

(** ** Closed forms of the template tests *)

(** [script[i] == op] when [i] is known to be in range. *)
Definition byte_at (script : bytes) (i : nat) (op : byte) : bool :=
  match nth_error script i with
  | Some b => Byte.eqb b op
  | None => false
  end.

Definition p2pkh_shape (script : bytes) : bool :=
  (len script =? 25) && byte_at script 0 OP_DUP && byte_at script 1 OP_HASH160 &&
  byte_at script 2 Byte.x14 && byte_at script 23 OP_EQUALVERIFY &&
  byte_at script 24 OP_CHECKSIG.

Definition p2sh_shape (script : bytes) : bool :=
  (len script =? 23) && byte_at script 0 OP_HASH160 && byte_at script 1 Byte.x14 &&
  byte_at script 22 OP_EQUALVERIFY.

Definition op_return_shape (script : bytes) : bool :=
  (len script >? 0) && byte_at script 0 OP_RETURN.

Definition standard_shape (script : bytes) : bool :=
  p2pkh_shape script || p2sh_shape script || op_return_shape script.

(** Every output passes [is_standard_script]. *)
Definition all_standard (outputs : list CTxOut) : bool :=
  forallb (fun txout => standard_shape (scriptPubKey txout)) outputs.

(** ** Sample collaborators and transactions *)

Module Sample.

(** [k] bytes of [v], least significant first. *)
Fixpoint little_endian (k : nat) (v : N) : bytes :=
  match k with
  | O => []
  | S k' =>
      match Byte.of_N (v mod 256)%N with
      | Some b => b :: little_endian k' (v / 256)%N
      | None => little_endian k' (v / 256)%N
      end
  end.

(** Bitcoin's compact-size prefix of a length. *)
Definition compact_size (l : N) : bytes :=
  if (l <? 253)%N then little_endian 1 l
  else if (l <=? 65535)%N then Byte.xfd :: little_endian 2 l
  else if (l <=? 4294967295)%N then Byte.xfe :: little_endian 4 l
  else Byte.xff :: little_endian 8 l.

(** The wire form of an output: 8-byte amount, script length, script. *)
Definition wire_txout (txout : CTxOut) : bytes :=
  little_endian 8 (Z.to_N (nValue txout mod 2 ^ 64)) ++
  compact_size (N.of_nat (List.length (scriptPubKey txout))) ++
  scriptPubKey txout.

Definition base_size (tx : CTransaction) : Z :=
  10 + sum (map (fun txin => 41 + len (scriptSig txin)) (vin tx))
     + sum (map (fun txout => len (wire_txout txout)) (vout tx)).

Definition codec : Codec :=
  {| serialize := wire_txout;
     get_weight := fun tx => Val (4 * base_size tx);
     get_vsize := fun tx => Val (base_size tx);
     GetHash := fun _ => repeat Byte.x00 32;
     is_opreturn := fun script => Val (byte_at script 0 OP_RETURN);
     is_bare_pubkey := fun script =>
       Val (((len script =? 35) || (len script =? 67)) &&
            byte_at script (List.length script - 1) OP_CHECKSIG);
     is_bare_multisig := fun script =>
       Val (byte_at script (List.length script - 1) Byte.xae) |}.

Definition zero_hash : bytes := repeat Byte.x00 20.

Definition funding_tx : CTransaction :=
  {| nVersion := 1; vin := [];
     vout := [ {| nValue := 50000; scriptPubKey := p2pkh_script zero_hash |} ];
     nLockTime := 0 |}.

Definition idle_entry : MempoolEntry :=
  {| ancestorcount := 0; ancestorsize := 0; descendantcount := 0; descendantsize := 0 |}.

(** A node that knows every previous transaction and an empty mempool
    neighbourhood. *)
Definition node : Node :=
  {| getrawtransaction := fun _ => Reply funding_tx;
     getmempoolentry := fun _ => Reply idle_entry |}.

(** A node that answers every request with an error. *)
Definition failing_node : Node :=
  {| getrawtransaction := fun _ => JSONRPCException "No such mempool or blockchain transaction";
     getmempoolentry := fun _ => JSONRPCException "Transaction not in mempool" |}.

(** A node reporting a crowded mempool neighbourhood. *)
Definition crowded_node : Node :=
  {| getrawtransaction := fun _ => Reply funding_tx;
     getmempoolentry := fun _ =>
       Reply {| ancestorcount := 3; ancestorsize := 101001;
                descendantcount := 25; descendantsize := 7 |} |}.

Definition spend_input : CTxIn :=
  {| prevout := {| prevout_hash := repeat Byte.x11 32; prevout_n := 0 |};
     scriptSig := repeat Byte.x00 107;
     nSequence := 4294967295 |}.

(** Scenario A: one input, one P2PKH output, fee 1000 satoshis. *)
Definition scenario_A : CTransaction :=
  {| nVersion := 1; vin := [spend_input];
     vout := [ {| nValue := 49000; scriptPubKey := p2pkh_script zero_hash |} ];
     nLockTime := 0 |}.

(** An output paying to a script no template matches. *)
Definition odd_output : CTxOut :=
  {| nValue := 10000; scriptPubKey := [Byte.x51] |}.

Definition odd_tx : CTransaction :=
  {| nVersion := 1; vin := [spend_input];
     vout := [ {| nValue := 30000; scriptPubKey := p2pkh_script zero_hash |}; odd_output ];
     nLockTime := 0 |}.

(** An output whose amount is beyond the integers a double holds. *)
Definition huge_output : CTxOut :=
  {| nValue := 2 ^ 53 + 3; scriptPubKey := [OP_RETURN] |}.

Definition huge_fee : Z := 100 * (2 ^ 53 + 3).

(** Outputs just below and exactly at the 30-satoshi threshold of a
    10-byte output at [DUST_RELAY_TX_FEE]. *)
Definition dusty_output : CTxOut := {| nValue := 29; scriptPubKey := [Byte.x51] |}.

Definition threshold_output : CTxOut := {| nValue := 30; scriptPubKey := [Byte.x51] |}.

End Sample.

(** ** The page

    The Streamlit handler of the "Check Transaction" button.  Decoding the
    text area ([tx_hex.strip()], [bytes.fromhex], [CTransaction.deserialize])
    belongs to Python and the codec: it yields a transaction or raises an
    exception with some text. *)

Inductive decoded : Type :=
| Decoded (tx : CTransaction)
| DecodeError (text : string).

Inductive page_event : Type :=
| Console (e : event)
| st_success (text : string)
| st_error (text : string).

Section Page.
Variable lib : Codec.
Variable rpc_connection : Node.
Variable deserialize_hex : string -> decoded.
Variable str : exn -> string.

Local Open Scope string_scope.

Definition on_check_transaction (tx_hex : string) : list page_event :=
  match deserialize_hex tx_hex with
  | DecodeError text => [st_error ("Error processing transaction: " ++ text)]
  | Decoded tx =>
      match check_standard_tx lib rpc_connection tx with
      | (Val true, printed) =>
          map Console printed ++
          [st_success "Transaction is standard and passes all filters"]
      | (Val false, printed) =>
          map Console printed ++
          [st_error "Transaction does not pass one or more standard checks"]
      | (Exn e, printed) =>
          map Console printed ++
          [st_error ("Error processing transaction: " ++ str e)]
      end
  end.

End Page.

(** ** Vocabulary of the statements below *)

(** The request [get_transaction_fee] sends for an input. *)
Definition fee_request (txin : CTxIn) : event :=
  Requested (getrawtransaction_request (hex (prevout_hash (prevout txin)))).

(** The previous output an input spends, when the node knows it. *)
Definition spent_output (node : Node) (txin : CTxIn) : option CTxOut :=
  match getrawtransaction node (hex (prevout_hash (prevout txin))) with
  | Reply prev_tx => nth_error (vout prev_tx) (prevout_n (prevout txin))
  | JSONRPCException _ => None
  end.

(** The values of the previous outputs of a list of inputs, when the node
    knows them all. *)
Fixpoint spent_values (node : Node) (inputs : list CTxIn) : option (list Z) :=
  match inputs with
  | [] => Some []
  | txin :: rest =>
      match spent_output node txin, spent_values node rest with
      | Some prev_out, Some values => Some (nValue prev_out :: values)
      | _, _ => None
      end
  end.

(** [needle] occurs in [haystack] as a run of consecutive bytes. *)
Definition occurs_in (needle haystack : bytes) : Prop :=
  exists before after : bytes, haystack = before ++ needle ++ after.

(** The script of an output contains one of the two markers. *)
Definition has_marker (txout : CTxOut) : bool :=
  bytes_contains OMNI_MARKER (scriptPubKey txout) ||
  bytes_contains RSK_MARKER (scriptPubKey txout).

(** The quantity check 5 compares with the limit, for the virtual size
    [tx.get_vsize()] returned. *)
Definition adjusted_vsize (vsize : Z) (tx : CTransaction) : Z :=
  vsize +
  sum (map (fun txin => len (scriptSig txin) / DEFAULT_BYTES_PER_SIGOP) (vin tx))
  * DEFAULT_BYTES_PER_SIGOP.

(** The number of RPC requests in a trace. *)
Definition count_requests (t : list event) : nat :=
  List.length (filter (fun e => match e with Requested _ => true | Printed _ => false end) t).

(** ** Further sample inputs *)

Module Cases.

(** An input naming output 5 of a transaction that has a single output. *)
Definition stray_input : CTxIn :=
  {| prevout := {| prevout_hash := repeat Byte.x11 32; prevout_n := 5 |};
     scriptSig := repeat Byte.x00 107;
     nSequence := 4294967295 |}.

(** An input spending a transaction the node below does not know. *)
Definition unknown_input : CTxIn :=
  {| prevout := {| prevout_hash := repeat Byte.x22 32; prevout_n := 0 |};
     scriptSig := repeat Byte.x00 107;
     nSequence := 4294967295 |}.

(** A node that knows the transaction with hash 11...11 only. *)
Definition partial_node : Node :=
  {| getrawtransaction := fun txid =>
       if String.eqb txid (hex (repeat Byte.x11 32))
       then Reply Sample.funding_tx
       else JSONRPCException "No such mempool or blockchain transaction";
     getmempoolentry := fun _ => JSONRPCException "Transaction not in mempool" |}.

Definition three_inputs (middle : CTxIn) : CTransaction :=
  {| nVersion := 1; vin := [Sample.spend_input; middle; Sample.spend_input];
     vout := [ {| nValue := 49000; scriptPubKey := p2pkh_script Sample.zero_hash |} ];
     nLockTime := 0 |}.

Definition tiny_output : CTxOut := {| nValue := 10; scriptPubKey := [Byte.x51] |}.

(** A codec in which the five calls are to methods the library does not
    have, as with python-bitcoinlib. *)
Definition bitcoinlib_codec : Codec :=
  {| serialize := Sample.wire_txout;
     get_weight := fun _ => Exn AttributeError;
     get_vsize := fun _ => Exn AttributeError;
     GetHash := fun _ => repeat Byte.x00 32;
     is_opreturn := fun _ => Exn AttributeError;
     is_bare_pubkey := fun _ => Exn AttributeError;
     is_bare_multisig := fun _ => Exn AttributeError |}.

End Cases.

(** * Properties *)

(** ** Spot checks of the arithmetic against CPython

    Each value below is what CPython prints for the same expression,
    read as mantissa and exponent. *)

Example truediv_third : int_truediv 1 3 = Val {| mant := 6004799503160661; expo := -54 |}.
Proof. vm_compute. reflexivity. Qed.

Example truediv_negative : int_truediv (-7) 2 = Val {| mant := -7881299347898368; expo := -51 |}.
Proof. vm_compute. reflexivity. Qed.

Example truediv_exact : int_truediv 102000 1000 = Val {| mant := 7177611906121728; expo := -46 |}.
Proof. vm_compute. reflexivity. Qed.

Example truediv_subnormal_tie : int_truediv 3 (2 ^ 1075) = Val {| mant := 2; expo := -1074 |}.
Proof. vm_compute. reflexivity. Qed.

Example truediv_overflow : int_truediv (10 ^ 400) 3 = Exn OverflowError.
Proof. vm_compute. reflexivity. Qed.

Example truediv_zero_divisor : int_truediv 5 0 = Exn ZeroDivisionError.
Proof. reflexivity. Qed.

Example dust_below_threshold :
  is_dust Sample.codec Sample.dusty_output DUST_RELAY_TX_FEE = Val true.
Proof. vm_compute. reflexivity. Qed.

Example dust_at_threshold :
  is_dust Sample.codec Sample.threshold_output DUST_RELAY_TX_FEE = Val false.
Proof. vm_compute. reflexivity. Qed.

Example hex_of_bytes : hex [Byte.x00; Byte.x1f; Byte.xa9] = "001fa9"%string.
Proof. reflexivity. Qed.

Example omni_found : bytes_contains OMNI_MARKER (OP_RETURN :: Byte.x04 :: OMNI_MARKER) = true.
Proof. reflexivity. Qed.

Example empty_script_unrecognized : is_standard_script [] = Val false.
Proof. reflexivity. Qed.

Example op_return_alone_is_standard : classify [OP_RETURN] = Val DataCarrier.
Proof. reflexivity. Qed.

Example scenario_A_fee :
  get_transaction_fee Sample.node Sample.scenario_A
  = (Val (Some 1000),
     [Requested (getrawtransaction_request
        "1111111111111111111111111111111111111111111111111111111111111111")]).
Proof. reflexivity. Qed.

(** ** The classifier *)

Section ClassifierFacts.

Lemma py_and_false (b : res bool) : py_and (Val false) b = Val false.
Proof. reflexivity. Qed.

Lemma py_and_true (b : res bool) : py_and (Val true) b = b.
Proof. reflexivity. Qed.

Lemma nth_error_in_range (script : bytes) (i : nat) :
  (Z.of_nat i < len script) -> exists b, nth_error script i = Some b.
Proof.
  unfold len. intros H.
  destruct (nth_error script i) as [b|] eqn:E.
  - now exists b.
  - apply nth_error_None in E. lia.
Qed.

(** An in-range [script[i] == op] does not raise. *)
Lemma item_is_in_range (script : bytes) (i : nat) (op : byte) :
  (Z.of_nat i < len script) -> item_is script i op = Val (byte_at script i op).
Proof.
  intros H. destruct (nth_error_in_range script i H) as [b Hb].
  unfold item_is, getitem, byte_at. now rewrite Hb.
Qed.

Lemma matches_p2pkh_shape (script : bytes) :
  matches_p2pkh script = Val (p2pkh_shape script).
Proof.
  unfold matches_p2pkh, p2pkh_shape.
  destruct (len script =? 25) eqn:E; [|reflexivity].
  apply Z.eqb_eq in E.
  rewrite !item_is_in_range by lia.
  rewrite py_and_true. cbn [andb].
  repeat match goal with
         | |- context [byte_at ?s ?i ?o] => destruct (byte_at s i o); cbn
         end; reflexivity.
Qed.

Lemma matches_p2sh_shape (script : bytes) :
  matches_p2sh script = Val (p2sh_shape script).
Proof.
  unfold matches_p2sh, p2sh_shape.
  destruct (len script =? 23) eqn:E; [|reflexivity].
  apply Z.eqb_eq in E.
  rewrite !item_is_in_range by lia.
  rewrite py_and_true. cbn [andb].
  repeat match goal with
         | |- context [byte_at ?s ?i ?o] => destruct (byte_at s i o); cbn
         end; reflexivity.
Qed.

Lemma matches_op_return_shape (script : bytes) :
  matches_op_return script = Val (op_return_shape script).
Proof.
  unfold matches_op_return, op_return_shape.
  destruct (len script >? 0) eqn:E; [|reflexivity].
  apply Z.gtb_lt in E.
  rewrite item_is_in_range by lia. reflexivity.
Qed.

(** [classify] never raises: the length tests guard every lookup. *)
Lemma classify_closed_form (script : bytes) :
  classify script =
  Val (if p2pkh_shape script then PayToPubkeyHash
       else if p2sh_shape script then PayToScriptHash
       else if op_return_shape script then DataCarrier
       else Unrecognized).
Proof.
  unfold classify.
  rewrite matches_p2pkh_shape, matches_p2sh_shape, matches_op_return_shape.
  cbn. destruct (p2pkh_shape script), (p2sh_shape script), (op_return_shape script);
    reflexivity.
Qed.

Lemma is_standard_script_closed_form (script : bytes) :
  is_standard_script script = Val (standard_shape script).
Proof.
  unfold is_standard_script, standard_shape.
  rewrite matches_p2pkh_shape, matches_p2sh_shape, matches_op_return_shape.
  cbn. destruct (p2pkh_shape script), (p2sh_shape script), (op_return_shape script);
    reflexivity.
Qed.

(** [is_standard_script] is [classify] with the name of the return site
    forgotten. *)
Lemma is_standard_script_classify (script : bytes) :
  is_standard_script script = res_bind (classify script) (fun k => Val (recognised k)).
Proof.
  rewrite is_standard_script_closed_form, classify_closed_form.
  unfold standard_shape. cbn.
  destruct (p2pkh_shape script), (p2sh_shape script), (op_return_shape script);
    reflexivity.
Qed.

Lemma classify_unrecognized_iff (script : bytes) :
  classify script = Val Unrecognized <-> is_standard_script script = Val false.
Proof.
  rewrite is_standard_script_closed_form, classify_closed_form.
  unfold standard_shape.
  destruct (p2pkh_shape script), (p2sh_shape script), (op_return_shape script);
    cbn; split; intros H; try reflexivity; discriminate H.
Qed.

(** The second template, as the program tests it. *)
Lemma classify_p2sh_iff (script : bytes) :
  classify script = Val PayToScriptHash <->
  List.length script = 23%nat /\
  nth_error script 0 = Some OP_HASH160 /\
  nth_error script 1 = Some Byte.x14 /\
  nth_error script 22 = Some OP_EQUALVERIFY.
Proof.
  rewrite classify_closed_form.
  assert (Hat : forall i op, byte_at script i op = true <-> nth_error script i = Some op).
  { intros i op. unfold byte_at. destruct (nth_error script i) as [b|].
    - split; intros H.
      + f_equal. now apply Byte.byte_dec_bl.
      + injection H as ->. now apply Byte.byte_dec_lb.
    - split; intros H; discriminate H. }
  split.
  - intros H.
    destruct (p2pkh_shape script); [discriminate H|].
    destruct (p2sh_shape script) eqn:E.
    + unfold p2sh_shape in E.
      rewrite !andb_true_iff, !Hat, Z.eqb_eq in E. unfold len in E.
      destruct E as [[[E0 E1] E2] E3]. repeat split; try assumption. lia.
    + destruct (op_return_shape script); discriminate H.
  - intros (Hl & H0 & H1 & H22).
    assert (E1 : p2pkh_shape script = false).
    { unfold p2pkh_shape, len. rewrite Hl. reflexivity. }
    assert (E2 : p2sh_shape script = true).
    { unfold p2sh_shape, len. rewrite Hl.
      rewrite !andb_true_iff, !Hat. repeat split; assumption. }
    now rewrite E1, E2.
Qed.

End ClassifierFacts.

(** Splitting a list of known length into its elements. *)
Ltac explode_list h H :=
  repeat (destruct h as [|? h]; [discriminate H|]; cbn in H; apply eq_add_S in H);
  destruct h; [|discriminate H].

(** For every 20-byte hash the script [HASH160 <push 20> EQUAL] matches no
    template: byte 22 is compared with [OP_EQUALVERIFY]. *)
Lemma p2sh_script_unrecognized (h : bytes) :
  List.length h = 20%nat -> classify (p2sh_script h) = Val Unrecognized.
Proof.
  intros H. explode_list h H. reflexivity.
Qed.

(** C4 (evaluated at the failing input): the 23-byte script
    [HASH160 <push of 20 zero bytes> EQUAL] is classified Unrecognized and
    [is_standard_script] returns [False] on it, while the same script ending
    in [EQUALVERIFY] is the one classified PayToScriptHash. *)
Theorem p2sh_with_equal_is_unrecognized :
  List.length (p2sh_script Sample.zero_hash) = 23%nat /\
  nth_error (p2sh_script Sample.zero_hash) 22 = Some OP_EQUAL /\
  classify (p2sh_script Sample.zero_hash) = Val Unrecognized /\
  is_standard_script (p2sh_script Sample.zero_hash) = Val false /\
  classify ([OP_HASH160; Byte.x14] ++ Sample.zero_hash ++ [OP_EQUALVERIFY])
    = Val PayToScriptHash.
Proof.
  repeat split; reflexivity.
Qed.

(** C6: [classify] is total: every byte sequence, of any length, has
    exactly one ScriptKind (no lookup raises), and the empty sequence is
    Unrecognized. *)
Theorem classify_total :
  (forall script : bytes, exists! k : ScriptKind, classify script = Val k) /\
  classify [] = Val Unrecognized.
Proof.
  split; [|reflexivity].
  intros script. rewrite classify_closed_form.
  eexists. split; [reflexivity|].
  intros k' H. now injection H.
Qed.

(** C7: for every 20-byte hash, the canonical 25-byte script
    [DUP HASH160 0x14 <hash> EQUALVERIFY CHECKSIG] is classified
    PayToPubkeyHash. *)
Theorem p2pkh_round_trip (h : bytes) :
  List.length h = 20%nat -> classify (p2pkh_script h) = Val PayToPubkeyHash.
Proof.
  intros H. explode_list h H. reflexivity.
Qed.

Lemma p2pkh_round_trip_witness :
  List.length Sample.zero_hash = 20%nat /\
  classify (p2pkh_script Sample.zero_hash) = Val PayToPubkeyHash.
Proof.
  split; [reflexivity|].
  apply (p2pkh_round_trip Sample.zero_hash). reflexivity.
Defined.

(** ** Sequencing of checks *)

Lemma bind_ret_l {A B : Type} (a : A) (k : A -> M B) : bind (ret a) k = k a.
Proof. unfold bind, ret. now destruct (k a). Qed.

Lemma and_then_proceed (c : check) : and_then proceed c = c.
Proof. unfold and_then, proceed. now rewrite bind_ret_l. Qed.

Lemma and_then_reject (r : Reason) (c : check) : and_then (reject r) c = reject r.
Proof. reflexivity. Qed.

Lemma or_return_reject (r : Reason) (b : bool) : or_return (reject r) b = run_of (Reject r).
Proof. reflexivity. Qed.

Lemma reject_rejects_with (r : Reason) : rejects_with (reject r) r.
Proof. split; [reflexivity|]. now exists []. Qed.

(** ** Check 1 and check 2 *)

Lemma check_receiver_scripts_closed_form (tx : CTransaction) :
  check_receiver_scripts tx =
  if all_standard (vout tx) then proceed else reject UnrecognizedScript.
Proof.
  unfold check_receiver_scripts, all_standard.
  induction (vout tx) as [|txout rest IH]; [reflexivity|].
  cbn [for_each forallb]. unfold CScript at 1.
  rewrite is_standard_script_closed_form.
  unfold lift. destruct (standard_shape (scriptPubKey txout)); cbn [andb].
  - change (bind (Val true, []) _) with proceed.
    now rewrite and_then_proceed.
  - reflexivity.
Qed.

Lemma all_standard_false_iff (outputs : list CTxOut) :
  all_standard outputs = false <->
  exists txout, In txout outputs /\ classify (scriptPubKey txout) = Val Unrecognized.
Proof.
  unfold all_standard. split.
  - intros H. induction outputs as [|o rest IH]; [discriminate H|].
    cbn in H. apply andb_false_iff in H. destruct H as [H|H].
    + exists o. split; [now left|].
      apply classify_unrecognized_iff.
      now rewrite is_standard_script_closed_form, H.
    + destruct (IH H) as (o' & Hin & Ho'). exists o'. split; [now right|assumption].
  - intros (o & Hin & Ho).
    apply classify_unrecognized_iff in Ho.
    rewrite is_standard_script_closed_form in Ho. injection Ho as Ho.
    destruct (forallb _ outputs) eqn:E; [|reflexivity].
    rewrite forallb_forall in E. specialize (E o Hin). cbn in E. congruence.
Qed.

Lemma all_standard_true_iff (outputs : list CTxOut) :
  all_standard outputs = true <->
  forall txout, In txout outputs ->
    exists k, classify (scriptPubKey txout) = Val k /\ k <> Unrecognized.
Proof.
  split.
  - intros H o Hin.
    pose proof (classify_closed_form (scriptPubKey o)) as Hk.
    eexists. split; [exact Hk|]. intros Hu. rewrite Hu in Hk.
    assert (all_standard outputs = false) by (apply all_standard_false_iff; eauto).
    congruence.
  - intros H. destruct (all_standard outputs) eqn:E; [reflexivity|].
    apply all_standard_false_iff in E. destruct E as (o & Hin & Ho).
    destruct (H o Hin) as (k & Hk & Hne). congruence.
Qed.

(** The whole of [check_standard_tx]: checks 1 and 2 decide. *)
Lemma check_standard_tx_closed_form (lib : Codec) (node : Node) (tx : CTransaction) :
  check_standard_tx lib node tx =
  run_of (Reject (if all_standard (vout tx) then PolicyDisabled else UnrecognizedScript)).
Proof.
  unfold check_standard_tx.
  rewrite check_receiver_scripts_closed_form.
  destruct (all_standard (vout tx)).
  - rewrite and_then_proceed. unfold check_parasites.
    rewrite and_then_reject. apply or_return_reject.
  - rewrite and_then_reject. apply or_return_reject.
Qed.

(** ** The evaluator *)

(** C1: a transaction with at least one output whose script is classified
    Unrecognized is rejected for UnrecognizedScript: [check_standard_tx]
    returns [False] having printed that one line and nothing else (no RPC
    request, no later check), whatever the codec and the node answer. *)
Theorem unrecognized_output_dominates (lib : Codec) (node : Node) (tx : CTransaction) :
  (exists txout, In txout (vout tx) /\ classify (scriptPubKey txout) = Val Unrecognized) ->
  check_standard_tx lib node tx = (Val false, [Printed (rejection_line UnrecognizedScript)]) /\
  check_standard_tx lib node tx = run_of (Reject UnrecognizedScript) /\
  forall (lib' : Codec) (node' : Node),
    check_standard_tx lib' node' tx = check_standard_tx lib node tx.
Proof.
  intros H. apply all_standard_false_iff in H.
  repeat split; intros; rewrite !check_standard_tx_closed_form, H; reflexivity.
Qed.

Lemma unrecognized_output_dominates_witness :
  (exists txout, In txout (vout Sample.odd_tx) /\
                 classify (scriptPubKey txout) = Val Unrecognized) /\
  check_standard_tx Sample.codec Sample.failing_node Sample.odd_tx
    = (Val false, [Printed (rejection_line UnrecognizedScript)]).
Proof.
  assert (H : exists txout, In txout (vout Sample.odd_tx) /\
                            classify (scriptPubKey txout) = Val Unrecognized).
  { exists Sample.odd_output. split; [right; left; reflexivity | reflexivity]. }
  split; [exact H|].
  exact (proj1 (unrecognized_output_dominates Sample.codec Sample.failing_node
                  Sample.odd_tx H)).
Defined.

(** C3: [check_standard_tx] rejects every transaction and never accepts:
    for UnrecognizedScript when some output fails [is_standard_script],
    otherwise for the parasite reason of the always-true branch; it prints
    that one line only, and its outcome is the same for every codec and
    every node, so fees, overlay markers, mempool statistics and checks 3 to
    13 have no influence. *)
Theorem check_standard_tx_always_rejects (lib : Codec) (node : Node) (tx : CTransaction) :
  result (check_standard_tx lib node tx) = Val false /\
  check_standard_tx lib node tx <> run_of Accept /\
  ((exists txout, In txout (vout tx) /\ is_standard_script (scriptPubKey txout) = Val false)
     /\ check_standard_tx lib node tx = run_of (Reject UnrecognizedScript)
   \/
   (forall txout, In txout (vout tx) -> is_standard_script (scriptPubKey txout) = Val true)
     /\ check_standard_tx lib node tx = run_of (Reject PolicyDisabled)) /\
  (forall (lib' : Codec) (node' : Node),
     check_standard_tx lib' node' tx = check_standard_tx lib node tx).
Proof.
  rewrite check_standard_tx_closed_form.
  split; [|split; [|split]].
  - now destruct (all_standard (vout tx)).
  - destruct (all_standard (vout tx)); intros E; discriminate E.
  - destruct (all_standard (vout tx)) eqn:E.
    + right. split; [|reflexivity].
      intros txout Hin. rewrite is_standard_script_closed_form.
      unfold all_standard in E. rewrite forallb_forall in E.
      now rewrite (E txout Hin).
    + left. split; [|reflexivity].
      apply all_standard_false_iff in E. destruct E as (txout & Hin & Hu).
      exists txout. split; [assumption|]. now apply classify_unrecognized_iff.
  - intros lib' node'. now rewrite check_standard_tx_closed_form.
Qed.

(** ** Topology checks *)

Lemma bind_request {B : Type} (r : rpc_request) (k : unit -> M B) :
  bind (request r) k = (result (k tt), Requested r :: trace (k tt)).
Proof. unfold bind, request, result, trace. now destruct (k tt). Qed.

Lemma bind_result_val {A B : Type} (m : M A) (k : A -> M B) (a : A) :
  result m = Val a -> bind m k = (result (k a), trace m ++ trace (k a)).
Proof.
  destruct m as [r t]. cbn. intros ->. unfold result, trace. cbn. now destruct (k a).
Qed.

Ltac split_trace :=
  match goal with
  | |- exists before, ?l = before ++ [?x] => exists (removelast l); reflexivity
  end.

Ltac decide_limits :=
  repeat match goal with
         | |- context [?a >=? ?b] => rewrite (Z.geb_leb a b); destruct (Z.leb_spec b a)
         | |- context [?a >? ?b] => rewrite (Z.gtb_ltb a b); destruct (Z.ltb_spec b a)
         end.

(** C8: on the values the four mempool getters supply, the topology checks
    return [False] exactly when the ancestor count is at least 25, or the
    ancestor size exceeds 101 * 1000, or the descendant count is at least
    25, or the descendant size exceeds 101 * 1000; the tests run in that
    order and the first one that fires names the reason; counts are
    compared with [>=], sizes with a strict [>]. *)
Theorem topology_checks_reject_exactly
    (lib : Codec) (node : Node) (tx : CTransaction)
    (ancestor_count ancestor_size descendant_count descendant_size : Z) :
  result (get_ancestor_count node (hex (GetHash lib tx))) = Val ancestor_count ->
  result (get_ancestor_size node (hex (GetHash lib tx))) = Val ancestor_size ->
  result (get_descendant_count node (hex (GetHash lib tx))) = Val descendant_count ->
  result (get_descendant_size node (hex (GetHash lib tx))) = Val descendant_size ->
  (MAX_UNCONFIRMED_ANCESTORS = 25 /\ MAX_ANCESTOR_SIZE_KB * 1000 = 101000 /\
   MAX_DESCENDANT_COUNT = 25 /\ MAX_DESCENDANT_SIZE_KB * 1000 = 101000) /\
  (result (topology_checks lib node tx) = Val (Some false) <->
     ancestor_count >= MAX_UNCONFIRMED_ANCESTORS \/
     ancestor_size > MAX_ANCESTOR_SIZE_KB * 1000 \/
     descendant_count >= MAX_DESCENDANT_COUNT \/
     descendant_size > MAX_DESCENDANT_SIZE_KB * 1000) /\
  (result (topology_checks lib node tx) = Val None <->
     ancestor_count < MAX_UNCONFIRMED_ANCESTORS /\
     ancestor_size <= MAX_ANCESTOR_SIZE_KB * 1000 /\
     descendant_count < MAX_DESCENDANT_COUNT /\
     descendant_size <= MAX_DESCENDANT_SIZE_KB * 1000) /\
  (ancestor_count >= MAX_UNCONFIRMED_ANCESTORS ->
     rejects_with (topology_checks lib node tx) TooManyAncestors) /\
  (ancestor_count < MAX_UNCONFIRMED_ANCESTORS ->
   ancestor_size > MAX_ANCESTOR_SIZE_KB * 1000 ->
     rejects_with (topology_checks lib node tx) AncestorSizeTooLarge) /\
  (ancestor_count < MAX_UNCONFIRMED_ANCESTORS ->
   ancestor_size <= MAX_ANCESTOR_SIZE_KB * 1000 ->
   descendant_count >= MAX_DESCENDANT_COUNT ->
     rejects_with (topology_checks lib node tx) TooManyDescendants) /\
  (ancestor_count < MAX_UNCONFIRMED_ANCESTORS ->
   ancestor_size <= MAX_ANCESTOR_SIZE_KB * 1000 ->
   descendant_count < MAX_DESCENDANT_COUNT ->
   descendant_size > MAX_DESCENDANT_SIZE_KB * 1000 ->
     rejects_with (topology_checks lib node tx) DescendantSizeTooLarge).
Proof.
  unfold topology_checks, check_ancestor_count, check_ancestor_size,
    check_descendant_count, check_descendant_size, rejects_with,
    get_ancestor_count, get_ancestor_size, get_descendant_count, get_descendant_size.
  generalize (hex (GetHash lib tx)) as txid. intros txid.
  rewrite !bind_request.
  unfold MAX_UNCONFIRMED_ANCESTORS, MAX_ANCESTOR_SIZE_KB, MAX_DESCENDANT_COUNT,
    MAX_DESCENDANT_SIZE_KB.
  destruct (getmempoolentry node txid) as [entry|message]; cbn [result trace fst snd ret];
    intros H1 H2 H3 H4; cbn in H1, H2, H3, H4;
    injection H1 as <-; injection H2 as <-; injection H3 as <-; injection H4 as <-;
    (split; [repeat split; reflexivity|]); cbn.
  - decide_limits; cbn;
      (repeat split; intros; try lia; try discriminate; try reflexivity; try split_trace).
  - repeat split; intros; try lia; try discriminate; try reflexivity.
Qed.

Lemma topology_checks_reject_exactly_witness :
  result (get_ancestor_count Sample.crowded_node
            (hex (GetHash Sample.codec Sample.scenario_A))) = Val 3 /\
  result (get_ancestor_size Sample.crowded_node
            (hex (GetHash Sample.codec Sample.scenario_A))) = Val 101001 /\
  result (get_descendant_count Sample.crowded_node
            (hex (GetHash Sample.codec Sample.scenario_A))) = Val 25 /\
  result (get_descendant_size Sample.crowded_node
            (hex (GetHash Sample.codec Sample.scenario_A))) = Val 7 /\
  rejects_with (topology_checks Sample.codec Sample.crowded_node Sample.scenario_A)
    AncestorSizeTooLarge.
Proof.
  do 4 (split; [reflexivity|]).
  refine (proj1 (proj2 (proj2 (proj2 (proj2
    (topology_checks_reject_exactly Sample.codec Sample.crowded_node Sample.scenario_A
       3 101001 25 7 eq_refl eq_refl eq_refl eq_refl))))) _ _).
  - unfold MAX_UNCONFIRMED_ANCESTORS. lia.
  - unfold MAX_ANCESTOR_SIZE_KB. lia.
Defined.

(** ** Missing previous outputs *)

Lemma total_input_value_from_missing
    (node : Node) (before : list CTxIn) (txin : CTxIn) (after : list CTxIn)
    (message : string) (total : Z) :
  Forall (fun i => exists prev_tx prev_out,
            getrawtransaction node (hex (prevout_hash (prevout i))) = Reply prev_tx /\
            nth_error (vout prev_tx) (prevout_n (prevout i)) = Some prev_out) before ->
  getrawtransaction node (hex (prevout_hash (prevout txin))) = JSONRPCException message ->
  result (total_input_value_from node (before ++ txin :: after) total) = Val None /\
  exists earlier,
    trace (total_input_value_from node (before ++ txin :: after) total)
    = earlier ++ [Printed ("Error fetching previous transaction: " ++ message)%string].
Proof.
  intros Hbefore Hmissing. revert total.
  induction Hbefore as [|i rest (prev_tx & prev_out & Hreply & Hout) _ IH]; intros total.
  - cbn [app total_input_value_from]. rewrite bind_request, Hmissing.
    split; [reflexivity|].
    eexists [_]. reflexivity.
  - cbn [app total_input_value_from]. rewrite bind_request, Hreply, Hout.
    destruct (IH (total + nValue prev_out)) as (Hres & earlier & Htrace).
    split; [exact Hres|].
    exists (Requested (getrawtransaction_request (hex (prevout_hash (prevout i)))) :: earlier).
    unfold trace in *. cbn [snd]. now rewrite Htrace.
Qed.

(** C5 (amended): when the lookup of the previous transaction of some
    input fails with an RPC error (the lookups before it having succeeded),
    [get_transaction_fee] prints the error and returns [None], a value no
    fee equals; check 4 turns that [None] into the plain return value
    [False], the value every policy rejection returns; and
    [check_standard_tx] as a whole still reports a policy rejection, from
    check 1 or check 2. *)
Theorem missing_previous_output_returns_false
    (lib : Codec) (node : Node) (tx : CTransaction)
    (before : list CTxIn) (txin : CTxIn) (after : list CTxIn) (message : string) :
  vin tx = before ++ txin :: after ->
  Forall (fun i => exists prev_tx prev_out,
            getrawtransaction node (hex (prevout_hash (prevout i))) = Reply prev_tx /\
            nth_error (vout prev_tx) (prevout_n (prevout i)) = Some prev_out) before ->
  getrawtransaction node (hex (prevout_hash (prevout txin))) = JSONRPCException message ->
  result (get_transaction_fee node tx) = Val None /\
  (exists earlier,
     trace (get_transaction_fee node tx)
     = earlier ++ [Printed ("Error fetching previous transaction: " ++ message)%string]) /\
  result (check_fee_rate lib node tx) = Val (Some false) /\
  (forall r : Reason, result (check_fee_rate lib node tx) = result (reject r)) /\
  (exists r : Reason, check_standard_tx lib node tx = run_of (Reject r)).
Proof.
  intros Hvin Hbefore Hmissing.
  destruct (total_input_value_from_missing node before txin after message 0
              Hbefore Hmissing) as (Hres & earlier & Htrace).
  assert (Hfee : get_transaction_fee node tx
                 = (Val None, earlier ++ [Printed ("Error fetching previous transaction: "
                                                   ++ message)%string])).
  { unfold get_transaction_fee. rewrite Hvin.
    rewrite (bind_result_val _ _ None Hres), Htrace.
    cbn. now rewrite app_nil_r. }
  assert (Hcheck : result (check_fee_rate lib node tx) = Val (Some false)).
  { unfold check_fee_rate. rewrite Hfee. reflexivity. }
  rewrite Hfee.
  split; [reflexivity|]. split; [now exists earlier|].
  split; [exact Hcheck|]. split; [intros r; exact Hcheck|].
  eexists. apply check_standard_tx_closed_form.
Qed.

Lemma missing_previous_output_returns_false_witness :
  vin Sample.scenario_A = [] ++ Sample.spend_input :: [] /\
  result (get_transaction_fee Sample.failing_node Sample.scenario_A) = Val None.
Proof.
  split; [reflexivity|].
  exact (proj1 (missing_previous_output_returns_false Sample.codec Sample.failing_node
                  Sample.scenario_A [] Sample.spend_input []
                  "No such mempool or blockchain transaction"
                  eq_refl (Forall_nil _) eq_refl)).
Defined.

(** C5 (refuted as stated): with a node that cannot supply the previous
    output of input 0, [get_transaction_fee] does return [None], yet
    [check_standard_tx] reports the parasite rejection, exactly as it does
    when the node supplies it, and check 4 on its own returns the same
    [False] a policy rejection returns: no separate error is surfaced. *)
Lemma missing_context_is_reported_as_rejection :
  getrawtransaction Sample.failing_node
    (hex (prevout_hash (prevout Sample.spend_input)))
    = JSONRPCException "No such mempool or blockchain transaction" /\
  vin Sample.scenario_A = [Sample.spend_input] /\
  result (get_transaction_fee Sample.failing_node Sample.scenario_A) = Val None /\
  check_standard_tx Sample.codec Sample.failing_node Sample.scenario_A
    = run_of (Reject PolicyDisabled) /\
  check_standard_tx Sample.codec Sample.failing_node Sample.scenario_A
    = check_standard_tx Sample.codec Sample.node Sample.scenario_A /\
  result (check_fee_rate Sample.codec Sample.failing_node Sample.scenario_A)
    = result (reject FeeRateTooLow).
Proof.
  repeat split; reflexivity.
Qed.

(** ** Dust and the rounding of the threshold *)

Lemma round_half_even_error (a b : Z) :
  0 < b -> - b <= 2 * (round_half_even a b * b - a) <= b.
Proof.
  intros Hb. unfold round_half_even.
  pose proof (Z.div_mod a b ltac:(lia)) as Hdiv.
  pose proof (Z.mod_pos_bound a b Hb) as Hmod.
  destruct (Z.compare_spec (2 * (a mod b)) b); [destruct (Z.even (a / b))| |]; nia.
Qed.

(** Below [2 ^ 44] the quotient by 1000 lies in a binade of exponent at
    most 43, where doubles are spaced [2 ^ -9] apart. *)
Lemma binade_1000_below_2_44 (a : Z) :
  0 < a < 1000 * 2 ^ 44 -> binade a 1000 <= 43.
Proof.
  intros [Hpos Hlt]. unfold binade.
  change (Z.log2 1000) with 9.
  assert (Hlog : Z.log2 a < 54).
  { apply Z.log2_lt_pow2; [assumption|]. change (2 ^ 54) with (1024 * 2 ^ 44). lia. }
  destruct (Z.eq_dec (Z.log2 a - 9) 44) as [E|E].
  - rewrite E. unfold below_pow2. cbn [Z.leb Z.compare].
    destruct (Z.ltb_spec a (1000 * 2 ^ 44)); lia.
  - destruct (below_pow2 a 1000 (Z.log2 a - 9)); lia.
Qed.

(** Within the range, [is_dust] compares the amount with the exact
    threshold. *)
Lemma is_dust_in_range (lib : Codec) (txout : CTxOut) (dust_relay_fee : Z) :
  Z.abs (len (serialize lib txout) * dust_relay_fee) < 1000 * 2 ^ 44 ->
  is_dust lib txout dust_relay_fee
  = Val (1000 * nValue txout <? len (serialize lib txout) * dust_relay_fee).
Proof.
  unfold is_dust.
  generalize (len (serialize lib txout) * dust_relay_fee) as T.
  generalize (nValue txout) as n. intros n T Hrange.
  unfold int_truediv. change (1000 =? 0) with false. cbn match.
  destruct (Z.eqb_spec T 0) as [->|Hnz].
  - cbn [res_bind]. unfold int_lt_float. cbn [expo mant Z.leb Z.compare].
    f_equal. rewrite Z.mul_0_l.
    destruct (Z.ltb_spec n 0), (Z.ltb_spec (1000 * n) 0); lia || reflexivity.
  - change (Z.abs 1000) with 1000. change (Z.sgn 1000) with 1.
    assert (HA : 0 < Z.abs T < 1000 * 2 ^ 44) by lia.
    assert (Hsign : Z.sgn T * 1 * Z.abs T = T /\ (Z.sgn T = 1 \/ Z.sgn T = -1)) by lia.
    revert HA Hsign. generalize (Z.abs T) as A. generalize (Z.sgn T) as sg.
    intros sg A HA [Hsign Hsg].
    pose proof (binade_1000_below_2_44 A HA) as He.
    set (s := Z.max (binade A 1000 - 52) (-1074)).
    assert (Hs : -1074 <= s <= -9) by (subst s; lia).
    destruct (Z.leb_spec 0 s) as [|_]; [lia|]. cbn [andb res_bind].
    unfold int_lt_float. cbn [expo mant].
    destruct (Z.leb_spec 0 s) as [|_]; [lia|].
    set (S := 2 ^ (- s)).
    assert (HS : 512 <= S).
    { subst S. change 512 with (2 ^ 9). apply Z.pow_le_mono_r; lia. }
    pose proof (round_half_even_error (A * S) 1000 ltac:(lia)) as Hround.
    set (m := round_half_even (A * S) 1000) in *.
    f_equal.
    destruct (Z.ltb_spec (1000 * n) T) as [Hlt|Hge].
    + apply Z.ltb_lt.
      assert ((1000 * n + 1) * S <= T * S) by (apply Z.mul_le_mono_nonneg_r; lia).
      destruct Hsg; subst sg; nia.
    + apply Z.ltb_ge.
      assert (T * S <= 1000 * n * S) by (apply Z.mul_le_mono_nonneg_r; lia).
      destruct Hsg; subst sg; nia.
Qed.

(** C9 (amended): provided [|size * dust_relay_fee| < 1000 * 2 ^ 44], so
    that the double the program computes for the threshold is within
    1/1000 of [size * dust_relay_fee / 1000], [is_dust] returns [True] if and
    only if the output's value is strictly less than that exact threshold,
    and [False] otherwise; an output whose value equals the threshold is
    not dust. *)
Theorem is_dust_iff_below_threshold
    (lib : Codec) (txout : CTxOut) (dust_relay_fee : Z) :
  Z.abs (len (serialize lib txout) * dust_relay_fee) < 1000 * 2 ^ 44 ->
  (is_dust lib txout dust_relay_fee = Val true <->
     (inject_Z (nValue txout) < dust_threshold_exact lib txout dust_relay_fee)%Q) /\
  (is_dust lib txout dust_relay_fee = Val false <->
     (dust_threshold_exact lib txout dust_relay_fee <= inject_Z (nValue txout))%Q) /\
  ((inject_Z (nValue txout) == dust_threshold_exact lib txout dust_relay_fee)%Q ->
     is_dust lib txout dust_relay_fee = Val false).
Proof.
  intros Hrange. rewrite (is_dust_in_range lib txout dust_relay_fee Hrange).
  unfold dust_threshold_exact, Qlt, Qle, Qeq, inject_Z. cbn [Qnum Qden].
  destruct (Z.ltb_spec (1000 * nValue txout) (len (serialize lib txout) * dust_relay_fee));
    repeat split; intros; try reflexivity; try discriminate; lia.
Qed.

Lemma is_dust_iff_below_threshold_witness :
  Z.abs (len (serialize Sample.codec Sample.odd_output) * DUST_RELAY_TX_FEE)
    < 1000 * 2 ^ 44 /\
  (is_dust Sample.codec Sample.odd_output DUST_RELAY_TX_FEE = Val false <->
     (dust_threshold_exact Sample.codec Sample.odd_output DUST_RELAY_TX_FEE
        <= inject_Z (nValue Sample.odd_output))%Q).
Proof.
  assert (H : Z.abs (len (serialize Sample.codec Sample.odd_output) * DUST_RELAY_TX_FEE)
              < 1000 * 2 ^ 44) by (vm_compute; reflexivity).
  split; [exact H|].
  exact (proj1 (proj2 (is_dust_iff_below_threshold Sample.codec Sample.odd_output
                         DUST_RELAY_TX_FEE H))).
Defined.

(** C9 (refuted as stated): an output of [2 ^ 53 + 3] satoshis whose
    serialization has 10 bytes, tested at a rate of [100 * (2 ^ 53 + 3)] per
    1000 bytes, has a value equal to the exact threshold, yet [is_dust]
    returns [True]: the threshold is rounded up to the double
    [2 ^ 53 + 4]. *)
Lemma rounded_threshold_misjudges_dust :
  len (serialize Sample.codec Sample.huge_output) = 10 /\
  (inject_Z (nValue Sample.huge_output)
     == dust_threshold_exact Sample.codec Sample.huge_output Sample.huge_fee)%Q /\
  int_truediv (10 * Sample.huge_fee) 1000 = Val {| mant := 2 ^ 52 + 2; expo := 1 |} /\
  is_dust Sample.codec Sample.huge_output Sample.huge_fee = Val true.
Proof.
  repeat split; vm_compute; reflexivity.
Qed.

(** ** Fee rate *)

(** The literal [0.00001000] is the double nearest to 1/100000. *)
Lemma MIN_FEE_RATE_LITERAL_nearest : int_truediv 1 100000 = Val MIN_FEE_RATE_LITERAL.
Proof. vm_compute. reflexivity. Qed.

(** Line 162 cannot produce a value: whatever the fee and the weight, the
    division of the Decimal by the float [weight / 4] raises [TypeError],
    unless [weight / 4] itself has already raised [OverflowError]. *)
Lemma fee_rate_raises (fee weight : Z) :
  fee_rate fee weight = Exn TypeError \/ fee_rate fee weight = Exn OverflowError.
Proof.
  unfold fee_rate, int_truediv. change (4 =? 0) with false. cbn match.
  destruct (weight =? 0); [now left|].
  match goal with |- context [if ?c then Exn OverflowError else _] => destruct c end.
  - now right.
  - now left.
Qed.

(** Once a fee is known, check 4 ends in an exception instead of a
    verdict: the one [tx.get_weight()] raises, or the one of line 162. *)
Lemma check_fee_rate_raises (lib : Codec) (node : Node) (tx : CTransaction) (fee : Z) :
  result (get_transaction_fee node tx) = Val (Some fee) ->
  exists e, check_fee_rate lib node tx = (Exn e, trace (get_transaction_fee node tx)) /\
    (get_weight lib tx = Exn e \/
     exists weight, get_weight lib tx = Val weight /\ fee_rate fee weight = Exn e /\
                    (e = TypeError \/ e = OverflowError)).
Proof.
  intros Hfee. unfold check_fee_rate.
  rewrite (bind_result_val _ _ (Some fee) Hfee).
  destruct (get_weight lib tx) as [weight|e].
  - unfold lift. cbn [bind result trace fst snd].
    destruct (fee_rate_raises fee weight) as [H|H]; rewrite H;
      [exists TypeError|exists OverflowError];
      (split; [cbn; now rewrite !app_nil_r|]); right; exists weight; auto.
  - exists e. cbn. rewrite app_nil_r. split; [reflexivity|]. now left.
Qed.


(** ** What follows checks 1 and 2 *)

Lemma result_and_then (c1 c2 : check) :
  result (and_then c1 c2)
  = match result c1 with
    | Val None => result c2
    | Val (Some b) => Val (Some b)
    | Exn e => Exn e
    end.
Proof.
  unfold and_then, bind, result. destruct c1 as [[[b|]|e] t]; cbn; try reflexivity.
  now destruct c2.
Qed.

Lemma result_or_return (c : check) (b : bool) :
  result (or_return c b)
  = match result c with
    | Val None => Val b
    | Val (Some b') => Val b'
    | Exn e => Exn e
    end.
Proof.
  unfold or_return, bind, result. now destruct c as [[[b'|]|e] t].
Qed.

(** The loop of the overlay detector ends in [True] after its line, in
    [False], or in the exception of a [script.is_opreturn()] call; it prints
    nothing in the last two cases. *)
Lemma overlay_marker_in_outcome (lib : Codec) (outputs : list CTxOut) :
  overlay_marker_in lib outputs
    = (Val true, [Printed (rejection_line OverlayProtocolDetected)]) \/
  overlay_marker_in lib outputs = (Val false, []) \/
  exists e, overlay_marker_in lib outputs = (Exn e, []).
Proof.
  induction outputs as [|txout rest IH]; [right; left; reflexivity|].
  cbn [overlay_marker_in]. unfold CScript, lift.
  destruct (is_opreturn lib (scriptPubKey txout)) as [[|]|e]; cbn [bind].
  - destruct (bytes_contains OMNI_MARKER (scriptPubKey txout)
              || bytes_contains RSK_MARKER (scriptPubKey txout)).
    + left. reflexivity.
    + destruct (overlay_marker_in lib rest) as [r t]. exact IH.
  - destruct (overlay_marker_in lib rest) as [r t]. exact IH.
  - right; right. exists e. reflexivity.
Qed.

Lemma check_overlay_result (lib : Codec) (tx : CTransaction) :
  result (check_overlay lib tx) = Val None \/
  result (check_overlay lib tx) = Val (Some false) \/
  exists e, result (check_overlay lib tx) = Exn e.
Proof.
  unfold check_overlay, contains_non_bitcoin_protocol.
  destruct (overlay_marker_in_outcome lib (vout tx)) as [H|[H|[e H]]]; rewrite H.
  - right; left. reflexivity.
  - left. reflexivity.
  - right; right. exists e. reflexivity.
Qed.

Lemma check_fee_rate_result (lib : Codec) (node : Node) (tx : CTransaction) :
  result (check_fee_rate lib node tx) = Val (Some false) \/
  exists e, result (check_fee_rate lib node tx) = Exn e.
Proof.
  destruct (result (get_transaction_fee node tx)) as [[fee|]|e] eqn:Hfee.
  - destruct (check_fee_rate_raises lib node tx fee Hfee) as (e & H & _).
    right. exists e. now rewrite H.
  - left. unfold check_fee_rate. now rewrite (bind_result_val _ _ None Hfee).
  - right. exists e. unfold check_fee_rate.
    destruct (get_transaction_fee node tx) as [r t]. cbn in Hfee. subst r. reflexivity.
Qed.

(** Checks 3 and 4, whatever follows them, end in [False] or in an
    exception. *)
Lemma checks_3_4_result (lib : Codec) (node : Node) (tx : CTransaction) (rest : check) :
  result (and_then (check_overlay lib tx) (and_then (check_fee_rate lib node tx) rest))
    = Val (Some false) \/
  exists e,
    result (and_then (check_overlay lib tx) (and_then (check_fee_rate lib node tx) rest))
    = Exn e.
Proof.
  rewrite !result_and_then.
  destruct (check_overlay_result lib tx) as [H|[H|[e H]]]; rewrite H.
  - destruct (check_fee_rate_result lib node tx) as [H'|[e H']]; rewrite H'.
    + now left.
    + right. now exists e.
  - now left.
  - right. now exists e.
Qed.

Lemma check_standard_tx_with_true (lib : Codec) (node : Node) (tx : CTransaction) :
  check_standard_tx_with lib node true tx = check_standard_tx lib node tx.
Proof. reflexivity. Qed.

(** The final [return True] is out of reach, also with [reject_parasites]
    switched off. *)
Lemma check_standard_tx_with_never_accepts
    (reject_parasites : bool) (lib : Codec) (node : Node) (tx : CTransaction) :
  result (check_standard_tx_with lib node reject_parasites tx) = Val false \/
  exists e, result (check_standard_tx_with lib node reject_parasites tx) = Exn e.
Proof.
  unfold check_standard_tx_with. rewrite result_or_return.
  rewrite check_receiver_scripts_closed_form.
  destruct (all_standard (vout tx)).
  - rewrite and_then_proceed. destruct reject_parasites.
    + left. reflexivity.
    + unfold check_parasites_with. rewrite and_then_proceed.
      destruct (checks_3_4_result lib node tx
                  (and_then (check_adjusted_vsize lib tx)
                     (and_then (check_bytes_per_sigop tx)
                        (and_then (topology_checks lib node tx)
                           (and_then (check_bare_pubkey lib tx)
                              (and_then (check_bare_multisig lib tx)
                                 (check_script_size tx)))))))
        as [H|[e H]]; rewrite H.
      * now left.
      * right. now exists e.
  - left. reflexivity.
Qed.

(** C2 (evaluated at the failing input): scenario A, one P2PKH output, a
    fee of 1000 at a weight of 768 (more than 5 per virtual byte), no
    ancestors or descendants, is not accepted.  As the source stands,
    [check_standard_tx] returns [False] at check 2.  With
    [reject_parasites] switched off the run ends in an exception at check 3
    or 4: [TypeError] from line 162 where the codec has every method called,
    [AttributeError] where it lacks them; for no codec and no node does it
    return [True]. *)
Theorem scenario_A_is_not_accepted :
  map (fun txout => classify (scriptPubKey txout)) (vout Sample.scenario_A)
    = [Val PayToPubkeyHash] /\
  result (get_transaction_fee Sample.node Sample.scenario_A) = Val (Some 1000) /\
  get_weight Sample.codec Sample.scenario_A = Val 768 /\
  (float_value MIN_FEE_RATE_LITERAL < Qmake (4 * 1000) 768)%Q /\
  768 < MAX_STANDARD_TX_WEIGHT /\
  getmempoolentry Sample.node (hex (GetHash Sample.codec Sample.scenario_A))
    = Reply Sample.idle_entry /\
  (forall (lib : Codec) (node : Node),
     check_standard_tx lib node Sample.scenario_A = run_of (Reject PolicyDisabled)) /\
  check_standard_tx_with Sample.codec Sample.node false Sample.scenario_A
    = (Exn TypeError,
       [Requested (getrawtransaction_request
          "1111111111111111111111111111111111111111111111111111111111111111")]) /\
  check_standard_tx_with Cases.bitcoinlib_codec Sample.node false Sample.scenario_A
    = (Exn AttributeError, []) /\
  (forall (reject_parasites : bool) (lib : Codec) (node : Node),
     result (check_standard_tx_with lib node reject_parasites Sample.scenario_A)
     <> Val true).
Proof.
  do 6 (split; [reflexivity|]).
  split; [intros lib node; now rewrite check_standard_tx_closed_form|].
  split; [vm_compute; reflexivity|].
  split; [vm_compute; reflexivity|].
  intros flag lib node.
  destruct (check_standard_tx_with_never_accepts flag lib node Sample.scenario_A)
    as [H|[e H]]; rewrite H; intros E; discriminate E.
Qed.

(** C10 (evaluated at the failing input): line 162 yields no fee rate.  For
    the fee 1000 at the weights 768 and 1536, and for every other fee and
    weight, [Decimal(fee) / (weight / 4)] raises; so does check 4 on
    scenario A once its fee is known. *)
Theorem fee_rate_is_never_computed :
  fee_rate 1000 768 = Exn TypeError /\
  fee_rate 1000 1536 = Exn TypeError /\
  (forall fee weight : Z,
     fee_rate fee weight = Exn TypeError \/ fee_rate fee weight = Exn OverflowError) /\
  check_fee_rate Sample.codec Sample.node Sample.scenario_A
  = (Exn TypeError,
     [Requested (getrawtransaction_request
        "1111111111111111111111111111111111111111111111111111111111111111")]).
Proof.
  split; [reflexivity|]. split; [reflexivity|].
  split; [exact fee_rate_raises|]. vm_compute. reflexivity.
Qed.

(** * Further properties of the program *)

(** ** Which scripts each template accepts *)

Lemma byte_at_true_iff (script : bytes) (i : nat) (op : byte) :
  byte_at script i op = true <-> nth_error script i = Some op.
Proof.
  unfold byte_at. destruct (nth_error script i) as [b|].
  - split; intros H.
    + f_equal. now apply Byte.byte_dec_bl.
    + injection H as ->. now apply Byte.byte_dec_lb.
  - split; intros H; discriminate H.
Qed.

Lemma p2pkh_shape_iff (script : bytes) :
  p2pkh_shape script = true <->
  List.length script = 25%nat /\
  nth_error script 0 = Some OP_DUP /\
  nth_error script 1 = Some OP_HASH160 /\
  nth_error script 2 = Some Byte.x14 /\
  nth_error script 23 = Some OP_EQUALVERIFY /\
  nth_error script 24 = Some OP_CHECKSIG.
Proof.
  unfold p2pkh_shape, len.
  rewrite !andb_true_iff, !byte_at_true_iff, Z.eqb_eq.
  split.
  - intros [[[[[Hl H0] H1] H2] H23] H24]. repeat split; try assumption. lia.
  - intros (Hl & H0 & H1 & H2 & H23 & H24). repeat split; try assumption. lia.
Qed.

Lemma op_return_shape_iff (script : bytes) :
  op_return_shape script = true <-> nth_error script 0 = Some OP_RETURN.
Proof.
  unfold op_return_shape, len.
  rewrite andb_true_iff, byte_at_true_iff. split.
  - now intros [_ H].
  - intros H. split; [|assumption].
    destruct script; [discriminate H|]. cbn. reflexivity.
Qed.

(** X1: [is_standard_script] takes its first [return True] exactly on the
    25-byte scripts whose bytes 0, 1, 2, 23 and 24 are DUP, HASH160, 0x14,
    EQUALVERIFY and CHECKSIG; the 20 bytes in between are not looked at. *)
Theorem classify_p2pkh_iff (script : bytes) :
  classify script = Val PayToPubkeyHash <->
  List.length script = 25%nat /\
  nth_error script 0 = Some OP_DUP /\
  nth_error script 1 = Some OP_HASH160 /\
  nth_error script 2 = Some Byte.x14 /\
  nth_error script 23 = Some OP_EQUALVERIFY /\
  nth_error script 24 = Some OP_CHECKSIG.
Proof.
  rewrite <- p2pkh_shape_iff, classify_closed_form.
  destruct (p2pkh_shape script), (p2sh_shape script), (op_return_shape script);
    split; intros H; try reflexivity; discriminate H.
Qed.

(** X2: a script is classified DataCarrier exactly when its first byte is
    OP_RETURN, whatever its length and whatever follows. *)
Theorem classify_data_carrier_iff (script : bytes) :
  classify script = Val DataCarrier <-> nth_error script 0 = Some OP_RETURN.
Proof.
  rewrite classify_closed_form. split.
  - intros H. apply op_return_shape_iff.
    destruct (p2pkh_shape script); [discriminate H|].
    destruct (p2sh_shape script); [discriminate H|].
    destruct (op_return_shape script); [reflexivity|discriminate H].
  - intros H.
    assert (E1 : p2pkh_shape script = false).
    { destruct (p2pkh_shape script) eqn:E; [|reflexivity].
      apply p2pkh_shape_iff in E. destruct E as (_ & E & _).
      rewrite H in E. discriminate E. }
    assert (E2 : p2sh_shape script = false).
    { destruct (p2sh_shape script) eqn:E; [|reflexivity].
      unfold p2sh_shape in E. rewrite !andb_true_iff, !byte_at_true_iff in E.
      destruct E as [[[_ E] _] _]. rewrite H in E. discriminate E. }
    apply op_return_shape_iff in H. now rewrite E1, E2, H.
Qed.

(** X3: the three template tests of [is_standard_script] exclude one
    another, so the order in which they are tried has no influence on the
    answer, and a script is standard exactly when one of them succeeds. *)
Theorem templates_are_exclusive (script : bytes) :
  (matches_p2pkh script = Val true ->
     matches_p2sh script = Val false /\ matches_op_return script = Val false) /\
  (matches_p2sh script = Val true ->
     matches_p2pkh script = Val false /\ matches_op_return script = Val false) /\
  (matches_op_return script = Val true ->
     matches_p2pkh script = Val false /\ matches_p2sh script = Val false) /\
  (is_standard_script script = Val true <->
   matches_p2pkh script = Val true \/ matches_p2sh script = Val true \/
   matches_op_return script = Val true).
Proof.
  assert (Hsh : p2sh_shape script = true ->
                List.length script = 23%nat /\ nth_error script 0 = Some OP_HASH160).
  { unfold p2sh_shape, len. rewrite !andb_true_iff, !byte_at_true_iff, Z.eqb_eq.
    intros [[[Hl H0] _] _]. split; [lia|assumption]. }
  assert (H12 : p2pkh_shape script = true -> p2sh_shape script = true -> False).
  { intros H1 H2. apply p2pkh_shape_iff in H1. apply Hsh in H2. lia. }
  assert (H13 : p2pkh_shape script = true -> op_return_shape script = true -> False).
  { intros H1 H3. apply p2pkh_shape_iff in H1. apply op_return_shape_iff in H3.
    destruct H1 as (_ & H1 & _). rewrite H3 in H1. discriminate H1. }
  assert (H23 : p2sh_shape script = true -> op_return_shape script = true -> False).
  { intros H2 H3. apply Hsh in H2. apply op_return_shape_iff in H3.
    destruct H2 as (_ & H2). rewrite H3 in H2. discriminate H2. }
  rewrite is_standard_script_closed_form, matches_p2pkh_shape, matches_p2sh_shape,
    matches_op_return_shape. unfold standard_shape.
  destruct (p2pkh_shape script), (p2sh_shape script), (op_return_shape script);
    repeat split; intros; try reflexivity; try discriminate; try tauto;
    try (exfalso; auto; fail);
    try (destruct H as [H|[H|H]]; discriminate H).
Qed.

(** X4: the second [return True] is taken exactly on the 23-byte scripts
    whose bytes 0, 1 and 22 are HASH160, 0x14 and EQUALVERIFY; a 23-byte
    script whose last byte is EQUAL never takes it. *)
Theorem p2sh_template_as_tested (script : bytes) :
  (classify script = Val PayToScriptHash <->
   List.length script = 23%nat /\
   nth_error script 0 = Some OP_HASH160 /\
   nth_error script 1 = Some Byte.x14 /\
   nth_error script 22 = Some OP_EQUALVERIFY) /\
  (nth_error script 22 = Some OP_EQUAL -> classify script <> Val PayToScriptHash).
Proof.
  split; [apply classify_p2sh_iff|].
  intros H22 H. apply classify_p2sh_iff in H. destruct H as (_ & _ & _ & H).
  rewrite H22 in H. discriminate H.
Qed.

(** ** Fees *)

Lemma fold_left_add_shift (l : list Z) (a : Z) :
  fold_left Z.add l a = a + fold_left Z.add l 0.
Proof.
  revert a. induction l as [|x l IH]; intros a; cbn.
  - lia.
  - rewrite (IH (a + x)), (IH x). lia.
Qed.

Lemma sum_cons (x : Z) (l : list Z) : sum (x :: l) = x + sum l.
Proof. unfold sum. cbn. apply fold_left_add_shift. Qed.

Lemma sum_nil : sum [] = 0.
Proof. reflexivity. Qed.

Lemma total_input_value_from_known
    (node : Node) (inputs : list CTxIn) (values : list Z) (total : Z) :
  spent_values node inputs = Some values ->
  total_input_value_from node inputs total
  = (Val (Some (total + sum values)), map fee_request inputs).
Proof.
  revert values total. induction inputs as [|txin rest IH]; intros values total H.
  - injection H as <-. cbn. now rewrite Z.add_0_r.
  - cbn [spent_values] in H. unfold spent_output in H.
    cbn [total_input_value_from]. rewrite bind_request.
    destruct (getrawtransaction node (hex (prevout_hash (prevout txin)))) as [prev_tx|m];
      [|discriminate H].
    destruct (nth_error (vout prev_tx) (prevout_n (prevout txin))) as [prev_out|];
      [|discriminate H].
    destruct (spent_values node rest) as [values'|]; [|discriminate H].
    injection H as <-.
    rewrite (IH values' (total + nValue prev_out) eq_refl).
    cbn [result trace fst snd map]. unfold fee_request at 2.
    rewrite sum_cons. do 3 f_equal. lia.
Qed.

(** The run of the loop up to an input whose lookup does not yield an
    output. *)
Lemma total_input_value_from_stops
    (node : Node) (before : list CTxIn) (txin : CTxIn) (after : list CTxIn)
    (values : list Z) (total : Z) :
  spent_values node before = Some values ->
  total_input_value_from node (before ++ txin :: after) total
  = match getrawtransaction node (hex (prevout_hash (prevout txin))) with
    | JSONRPCException e =>
        (Val None,
         map fee_request (before ++ [txin]) ++
         [Printed ("Error fetching previous transaction: " ++ e)%string])
    | Reply prev_tx =>
        match nth_error (vout prev_tx) (prevout_n (prevout txin)) with
        | None => (Exn IndexError, map fee_request (before ++ [txin]))
        | Some prev_out =>
            let (r, t) := total_input_value_from node after
                            (total + sum values + nValue prev_out) in
            (r, map fee_request (before ++ [txin]) ++ t)
        end
    end.
Proof.
  revert values total. induction before as [|i rest IH]; intros values total H.
  - injection H as <-. cbn [app total_input_value_from]. rewrite bind_request.
    rewrite sum_nil, Z.add_0_r.
    destruct (getrawtransaction node (hex (prevout_hash (prevout txin)))) as [prev_tx|m].
    + destruct (nth_error (vout prev_tx) (prevout_n (prevout txin))) as [prev_out|].
      * destruct (total_input_value_from node after (total + nValue prev_out)).
        reflexivity.
      * reflexivity.
    + reflexivity.
  - cbn [spent_values] in H. unfold spent_output in H.
    cbn [app total_input_value_from]. rewrite bind_request.
    destruct (getrawtransaction node (hex (prevout_hash (prevout i)))) as [ptx|m];
      [|discriminate H].
    destruct (nth_error (vout ptx) (prevout_n (prevout i))) as [po|]; [|discriminate H].
    destruct (spent_values node rest) as [values'|]; [|discriminate H].
    injection H as <-.
    rewrite (IH values' (total + nValue po) eq_refl).
    rewrite sum_cons.
    replace (total + nValue po + sum values') with (total + (nValue po + sum values'))
      by lia.
    destruct (getrawtransaction node (hex (prevout_hash (prevout txin)))) as [prev_tx|m].
    + destruct (nth_error (vout prev_tx) (prevout_n (prevout txin))) as [prev_out|].
      * destruct (total_input_value_from node after
                    (total + (nValue po + sum values') + nValue prev_out)).
        reflexivity.
      * reflexivity.
    + reflexivity.
Qed.

(** X5: when the node knows the previous output of every input,
    [get_transaction_fee] returns the sum of their values minus the sum of
    the transaction's output values (negative when the outputs exceed the
    inputs), after exactly one [getrawtransaction] request per input, in
    input order, and without printing. *)
Theorem get_transaction_fee_known
    (node : Node) (tx : CTransaction) (values : list Z) :
  spent_values node (vin tx) = Some values ->
  get_transaction_fee node tx
  = (Val (Some (sum values - sum (map nValue (vout tx)))), map fee_request (vin tx)).
Proof.
  intros H. unfold get_transaction_fee.
  rewrite (total_input_value_from_known node (vin tx) values 0 H).
  cbn. now rewrite app_nil_r.
Qed.

Lemma get_transaction_fee_known_witness :
  spent_values Sample.node (vin Sample.scenario_A) = Some [50000] /\
  get_transaction_fee Sample.node Sample.scenario_A
  = (Val (Some (sum [50000] - sum (map nValue (vout Sample.scenario_A)))),
     map fee_request (vin Sample.scenario_A)).
Proof.
  split; [reflexivity|].
  exact (get_transaction_fee_known Sample.node Sample.scenario_A [50000] eq_refl).
Defined.

(** X6: when an input names an output index that its previous transaction
    does not have, [get_transaction_fee] raises [IndexError], which the
    handler for [JSONRPCException] does not catch; the inputs after it are
    not looked up, and check 4 raises the same exception. *)
Theorem get_transaction_fee_index_error
    (lib : Codec) (node : Node) (tx : CTransaction)
    (before : list CTxIn) (txin : CTxIn) (after : list CTxIn)
    (values : list Z) (prev_tx : CTransaction) :
  vin tx = before ++ txin :: after ->
  spent_values node before = Some values ->
  getrawtransaction node (hex (prevout_hash (prevout txin))) = Reply prev_tx ->
  (List.length (vout prev_tx) <= prevout_n (prevout txin))%nat ->
  get_transaction_fee node tx = (Exn IndexError, map fee_request (before ++ [txin])) /\
  check_fee_rate lib node tx = (Exn IndexError, map fee_request (before ++ [txin])).
Proof.
  intros Hvin Hbefore Hreply Hn.
  apply nth_error_None in Hn.
  assert (H : get_transaction_fee node tx
              = (Exn IndexError, map fee_request (before ++ [txin]))).
  { unfold get_transaction_fee. rewrite Hvin.
    rewrite (total_input_value_from_stops node before txin after values 0 Hbefore).
    rewrite Hreply, Hn. reflexivity. }
  split; [exact H|]. unfold check_fee_rate. rewrite H. reflexivity.
Qed.

(** X7: when the lookup for an input fails with an RPC error, the earlier
    ones having succeeded, [get_transaction_fee] stops there: it has sent
    one request for each input up to that one, prints the error once and
    returns [None]; the inputs after it are never requested. *)
Theorem get_transaction_fee_stops_at_first_error
    (node : Node) (tx : CTransaction)
    (before : list CTxIn) (txin : CTxIn) (after : list CTxIn)
    (values : list Z) (message : string) :
  vin tx = before ++ txin :: after ->
  spent_values node before = Some values ->
  getrawtransaction node (hex (prevout_hash (prevout txin))) = JSONRPCException message ->
  get_transaction_fee node tx
  = (Val None,
     map fee_request (before ++ [txin]) ++
     [Printed ("Error fetching previous transaction: " ++ message)%string]) /\
  count_requests (trace (get_transaction_fee node tx)) = S (List.length before).
Proof.
  intros Hvin Hbefore Hmissing.
  assert (H : get_transaction_fee node tx
              = (Val None,
                 map fee_request (before ++ [txin]) ++
                 [Printed ("Error fetching previous transaction: " ++ message)%string])).
  { unfold get_transaction_fee. rewrite Hvin.
    rewrite (total_input_value_from_stops node before txin after values 0 Hbefore).
    rewrite Hmissing. cbn. now rewrite app_nil_r. }
  split; [exact H|]. rewrite H. cbn [trace snd].
  unfold count_requests. rewrite filter_app, length_app, map_app, filter_app, length_app.
  cbn. clear. induction before as [|i rest IH]; cbn; lia.
Qed.

Lemma count_requests_cons_request (r : rpc_request) (t : list event) :
  count_requests (Requested r :: t) = S (count_requests t).
Proof. reflexivity. Qed.

(** What each outcome of the loop of [get_transaction_fee] tells about the
    run that led to it. *)
Lemma total_input_value_from_explained (node : Node) (inputs : list CTxIn) (total : Z) :
  (forall v, result (total_input_value_from node inputs total) = Val (Some v) ->
     exists values, spent_values node inputs = Some values /\
       v = total + sum values /\
       trace (total_input_value_from node inputs total) = map fee_request inputs) /\
  (result (total_input_value_from node inputs total) = Val None ->
     exists earlier message,
       trace (total_input_value_from node inputs total)
       = earlier ++ [Printed ("Error fetching previous transaction: " ++ message)%string]) /\
  (count_requests (trace (total_input_value_from node inputs total))
   <= List.length inputs)%nat.
Proof.
  revert total. induction inputs as [|txin rest IH]; intros total.
  - cbn. repeat split.
    + intros v H. injection H as <-. exists []. rewrite sum_nil.
      repeat split; [lia].
    + intros H. discriminate H.
    + lia.
  - cbn [total_input_value_from spent_values]. unfold spent_output.
    rewrite bind_request. cbn [result trace fst snd List.length map].
    rewrite count_requests_cons_request.
    destruct (getrawtransaction node (hex (prevout_hash (prevout txin)))) as [prev_tx|m].
    + destruct (nth_error (vout prev_tx) (prevout_n (prevout txin))) as [prev_out|].
      * destruct (IH (total + nValue prev_out)) as (Hsome & Hnone & Hcount).
        repeat split.
        -- intros v Hv. destruct (Hsome v Hv) as (values & Hvalues & -> & Ht).
           exists (nValue prev_out :: values). rewrite Hvalues, sum_cons.
           repeat split; [lia|]. unfold fee_request at 1. now rewrite Ht.
        -- intros Hn. destruct (Hnone Hn) as (earlier & message & Ht).
           exists (Requested (getrawtransaction_request
                                (hex (prevout_hash (prevout txin)))) :: earlier), message.
           now rewrite Ht.
        -- lia.
      * cbn. repeat split; try discriminate. lia.
    + cbn. repeat split; try discriminate.
      * intros _.
        exists [Requested (getrawtransaction_request (hex (prevout_hash (prevout txin))))], m.
        reflexivity.
      * lia.
Qed.

Lemma get_transaction_fee_as_loop (node : Node) (tx : CTransaction) :
  result (get_transaction_fee node tx)
  = match result (total_input_value_from node (vin tx) 0) with
    | Val (Some v) => Val (Some (v - sum (map nValue (vout tx))))
    | Val None => Val None
    | Exn e => Exn e
    end /\
  trace (get_transaction_fee node tx) = trace (total_input_value_from node (vin tx) 0).
Proof.
  unfold get_transaction_fee.
  destruct (total_input_value_from node (vin tx) 0) as [[[v|]|e] t]; cbn;
    rewrite ?app_nil_r; split; reflexivity.
Qed.

(** X8: what a result of [get_transaction_fee] tells.  A returned fee is
    the sum of the previous outputs' values minus the sum of the output
    values, every input was looked up once, in order, and nothing was
    printed.  A returned [None] comes right after the error line.  In every
    run there is at most one request per input. *)
Theorem get_transaction_fee_explained (node : Node) (tx : CTransaction) :
  (forall fee, result (get_transaction_fee node tx) = Val (Some fee) ->
     exists values, spent_values node (vin tx) = Some values /\
       fee = sum values - sum (map nValue (vout tx)) /\
       trace (get_transaction_fee node tx) = map fee_request (vin tx)) /\
  (result (get_transaction_fee node tx) = Val None ->
     exists earlier message,
       trace (get_transaction_fee node tx)
       = earlier ++ [Printed ("Error fetching previous transaction: " ++ message)%string]) /\
  (count_requests (trace (get_transaction_fee node tx)) <= List.length (vin tx))%nat.
Proof.
  destruct (get_transaction_fee_as_loop node tx) as [Hr Ht].
  destruct (total_input_value_from_explained node (vin tx) 0) as (Hsome & Hnone & Hcount).
  rewrite Hr, Ht.
  destruct (result (total_input_value_from node (vin tx) 0)) as [[v|]|e].
  - repeat split; [|discriminate|exact Hcount].
    intros fee H. injection H as <-.
    destruct (Hsome v eq_refl) as (values & Hvalues & -> & Htrace).
    exists values. repeat split; try assumption; try lia.
  - repeat split; [discriminate| |exact Hcount]. intros _. now apply Hnone.
  - repeat split; [discriminate|discriminate|exact Hcount].
Qed.

(** X9: check 4 lets no transaction through.  It returns [False] when
    [get_transaction_fee] returned [None].  Once a fee is known it raises:
    the exception of [tx.get_weight()] where that call raises
    ([AttributeError] where the library has no such method), and otherwise
    [TypeError] from dividing a Decimal by a float on line 162 (or
    [OverflowError] from [weight / 4]).  Its own "Low fee rate" rejection is
    never produced. *)
Theorem check_fee_rate_never_passes (lib : Codec) (node : Node) (tx : CTransaction) :
  result (check_fee_rate lib node tx) <> Val None /\
  (result (get_transaction_fee node tx) = Val None ->
     check_fee_rate lib node tx = (Val (Some false), trace (get_transaction_fee node tx))) /\
  (forall fee, result (get_transaction_fee node tx) = Val (Some fee) ->
     exists e, check_fee_rate lib node tx = (Exn e, trace (get_transaction_fee node tx)) /\
       (get_weight lib tx = Exn e \/
        exists weight, get_weight lib tx = Val weight /\ fee_rate fee weight = Exn e /\
                       (e = TypeError \/ e = OverflowError))) /\
  (forall e, get_weight lib tx = Exn e ->
     forall fee, result (get_transaction_fee node tx) = Val (Some fee) ->
     result (check_fee_rate lib node tx) = Exn e) /\
  ~ rejects_with (check_fee_rate lib node tx) FeeRateTooLow.
Proof.
  assert (Hnone : result (get_transaction_fee node tx) = Val None ->
            check_fee_rate lib node tx
            = (Val (Some false), trace (get_transaction_fee node tx))).
  { intros H. unfold check_fee_rate. rewrite (bind_result_val _ _ None H).
    cbn. now rewrite app_nil_r. }
  assert (Hweight : forall e, get_weight lib tx = Exn e ->
            forall fee, result (get_transaction_fee node tx) = Val (Some fee) ->
            result (check_fee_rate lib node tx) = Exn e).
  { intros e He fee H. unfold check_fee_rate. rewrite (bind_result_val _ _ (Some fee) H).
    rewrite He. reflexivity. }
  split; [|split; [exact Hnone|split; [apply check_fee_rate_raises|split; [exact Hweight|]]]].
  - destruct (check_fee_rate_result lib node tx) as [H|[e H]]; rewrite H;
      intros E; discriminate E.
  - intros [Hres (before & Htrace)].
    destruct (result (get_transaction_fee node tx)) as [[fee|]|e] eqn:Hfee.
    + destruct (check_fee_rate_raises lib node tx fee Hfee) as (e & H & _).
      rewrite H in Hres. discriminate Hres.
    + rewrite (Hnone eq_refl) in Htrace. cbn [trace snd] in Htrace.
      destruct (get_transaction_fee_as_loop node tx) as [Hr Ht].
      rewrite Hfee in Hr.
      destruct (total_input_value_from_explained node (vin tx) 0) as (_ & Hlast & _).
      destruct (result (total_input_value_from node (vin tx) 0)) as [[v|]|e];
        try discriminate Hr.
      destruct (Hlast eq_refl) as (earlier & message & Hl).
      unfold trace in Htrace, Ht, Hl. rewrite Ht, Hl in Htrace.
      apply app_inj_tail in Htrace. destruct Htrace as [_ E]. discriminate E.
    + unfold check_fee_rate in Hres.
      destruct (get_transaction_fee node tx) as [r t]. cbn in Hfee. subst r.
      discriminate Hres.
Qed.

(** ** The mempool getters and checks 7 to 10 *)

(** X10: when the node has no mempool entry for the transaction, each of
    the four getters prints its error and returns 0, so all four topology
    checks pass: a transaction unknown to the mempool is treated as one
    without ancestors or descendants. *)
Theorem unknown_to_mempool_passes_topology
    (lib : Codec) (node : Node) (tx : CTransaction) (message : string) :
  getmempoolentry node (hex (GetHash lib tx)) = JSONRPCException message ->
  result (get_ancestor_count node (hex (GetHash lib tx))) = Val 0 /\
  result (get_ancestor_size node (hex (GetHash lib tx))) = Val 0 /\
  result (get_descendant_count node (hex (GetHash lib tx))) = Val 0 /\
  result (get_descendant_size node (hex (GetHash lib tx))) = Val 0 /\
  topology_checks lib node tx
  = (Val None,
     [Requested (getmempoolentry_request (hex (GetHash lib tx)));
      Printed ("Error fetching ancestor count: " ++ message)%string;
      Requested (getmempoolentry_request (hex (GetHash lib tx)));
      Printed ("Error fetching ancestor size: " ++ message)%string;
      Requested (getmempoolentry_request (hex (GetHash lib tx)));
      Printed ("Error fetching descendant count: " ++ message)%string;
      Requested (getmempoolentry_request (hex (GetHash lib tx)));
      Printed ("Error fetching descendant size: " ++ message)%string]).
Proof.
  intros H.
  unfold topology_checks, check_ancestor_count, check_ancestor_size,
    check_descendant_count, check_descendant_size,
    get_ancestor_count, get_ancestor_size, get_descendant_count, get_descendant_size.
  rewrite !bind_request, H. repeat split; reflexivity.
Qed.

Lemma unknown_to_mempool_passes_topology_witness :
  getmempoolentry Sample.failing_node (hex (GetHash Sample.codec Sample.scenario_A))
  = JSONRPCException "Transaction not in mempool" /\
  result (topology_checks Sample.codec Sample.failing_node Sample.scenario_A) = Val None.
Proof.
  split; [reflexivity|].
  pose proof (unknown_to_mempool_passes_topology Sample.codec Sample.failing_node
                Sample.scenario_A "Transaction not in mempool" eq_refl) as H.
  destruct H as (_ & _ & _ & _ & H). rewrite H. reflexivity.
Defined.

(** X11: the topology checks never raise; each check that runs sends its
    own [getmempoolentry] request for the transaction's hash, so a run sends
    between one and four requests, and four when all checks pass. *)
Theorem topology_checks_requests (lib : Codec) (node : Node) (tx : CTransaction) :
  (result (topology_checks lib node tx) = Val None \/
   result (topology_checks lib node tx) = Val (Some false)) /\
  (1 <= count_requests (trace (topology_checks lib node tx)) <= 4)%nat /\
  (result (topology_checks lib node tx) = Val None ->
   count_requests (trace (topology_checks lib node tx)) = 4%nat) /\
  (forall r, In (Requested r) (trace (topology_checks lib node tx)) ->
     r = getmempoolentry_request (hex (GetHash lib tx))).
Proof.
  unfold topology_checks, check_ancestor_count, check_ancestor_size,
    check_descendant_count, check_descendant_size,
    get_ancestor_count, get_ancestor_size, get_descendant_count, get_descendant_size.
  generalize (hex (GetHash lib tx)) as txid. intros txid.
  rewrite !bind_request.
  destruct (getmempoolentry node txid) as [entry|message]; cbn.
  - decide_limits; cbn; repeat split; intros;
      try (left; reflexivity); try (right; reflexivity); try lia; try discriminate;
      repeat match goal with
             | H : _ \/ _ |- _ => destruct H
             | H : False |- _ => destruct H
             | H : Requested _ = Requested _ |- _ => injection H as <-
             | H : Printed _ = Requested _ |- _ => discriminate H
             end; reflexivity.
  - repeat split; intros;
      try (left; reflexivity); try lia;
      repeat match goal with
             | H : _ \/ _ |- _ => destruct H
             | H : False |- _ => destruct H
             | H : Requested _ = Requested _ |- _ => injection H as <-
             | H : Printed _ = Requested _ |- _ => discriminate H
             end; reflexivity.
Qed.

(** ** The overlay detector *)

Lemma starts_with_iff (needle haystack : bytes) :
  starts_with needle haystack = true <-> exists after, haystack = needle ++ after.
Proof.
  revert haystack. induction needle as [|x needle IH]; intros haystack.
  - cbn. split; [intros _; now exists haystack|reflexivity].
  - destruct haystack as [|y haystack]; cbn.
    + split; [discriminate|]. intros [after H]. discriminate H.
    + rewrite andb_true_iff, IH. split.
      * intros [Hxy [after ->]]. apply Byte.byte_dec_bl in Hxy. subst. now exists after.
      * intros [after H]. injection H as -> ->. split; [now apply Byte.byte_dec_lb|].
        now exists after.
Qed.

(** [needle in haystack] on bytes is the search for a run of consecutive
    bytes. *)
Lemma bytes_contains_iff (needle haystack : bytes) :
  bytes_contains needle haystack = true <-> occurs_in needle haystack.
Proof.
  unfold occurs_in. induction haystack as [|y haystack IH].
  - cbn [bytes_contains]. rewrite orb_false_r, starts_with_iff. split.
    + intros [after H]. now exists [], after.
    + intros (before & after & H).
      destruct before; [now exists after|discriminate H].
  - cbn [bytes_contains]. rewrite orb_true_iff, starts_with_iff, IH. split.
    + intros [[after H]|(before & after & H)].
      * now exists [], after.
      * exists (y :: before), after. cbn. now rewrite H.
    + intros (before & after & H). destruct before as [|b before].
      * left. now exists after.
      * right. injection H as -> H. now exists before, after.
Qed.

Lemma overlay_marker_in_answering (lib : Codec) (outputs : list CTxOut) :
  (forall txout, In txout outputs -> exists b, is_opreturn lib (scriptPubKey txout) = Val b) ->
  overlay_marker_in lib outputs
  = if existsb (fun txout =>
                  match is_opreturn lib (scriptPubKey txout) with
                  | Val true => has_marker txout
                  | _ => false
                  end) outputs
    then (Val true, [Printed (rejection_line OverlayProtocolDetected)])
    else (Val false, []).
Proof.
  induction outputs as [|txout rest IH]; intros Hall; [reflexivity|].
  cbn [overlay_marker_in existsb]. unfold CScript, lift.
  destruct (Hall txout (or_introl eq_refl)) as [b Hb]. rewrite Hb.
  assert (IH' := IH (fun o Ho => Hall o (or_intror Ho))).
  destruct b; cbn [bind].
  - unfold has_marker at 1.
    destruct (bytes_contains OMNI_MARKER (scriptPubKey txout)
              || bytes_contains RSK_MARKER (scriptPubKey txout)); cbn [orb].
    + reflexivity.
    + rewrite IH'. now destruct (existsb _ rest).
  - cbn [orb]. rewrite IH'. now destruct (existsb _ rest).
Qed.

(** X12: [contains_non_bitcoin_protocol] calls [script.is_opreturn()] on the
    outputs in order.  It raises what that call raises on the first output
    ([AttributeError] where the library has no such method), printing
    nothing, and returns [False] without any call when there is no output.
    Where the call answers for every output, it returns [True] exactly when
    some output reported as OP_RETURN has a script in which the bytes of
    "Omni" or of "RSK" occur consecutively, anywhere in the script.  Its
    rejection line is printed once when it returns [True] and not
    otherwise. *)
Theorem contains_non_bitcoin_protocol_outcomes (lib : Codec) (tx : CTransaction) :
  (vout tx = [] -> contains_non_bitcoin_protocol lib tx = (Val false, [])) /\
  (forall txout rest e,
     vout tx = txout :: rest -> is_opreturn lib (scriptPubKey txout) = Exn e ->
     contains_non_bitcoin_protocol lib tx = (Exn e, [])) /\
  ((forall txout, In txout (vout tx) ->
      exists b, is_opreturn lib (scriptPubKey txout) = Val b) ->
   (result (contains_non_bitcoin_protocol lib tx) = Val true \/
    result (contains_non_bitcoin_protocol lib tx) = Val false) /\
   (result (contains_non_bitcoin_protocol lib tx) = Val true <->
    exists txout, In txout (vout tx) /\
      is_opreturn lib (scriptPubKey txout) = Val true /\
      (occurs_in OMNI_MARKER (scriptPubKey txout) \/
       occurs_in RSK_MARKER (scriptPubKey txout)))) /\
  trace (contains_non_bitcoin_protocol lib tx)
  = match result (contains_non_bitcoin_protocol lib tx) with
    | Val true => [Printed (rejection_line OverlayProtocolDetected)]
    | _ => []
    end.
Proof.
  unfold contains_non_bitcoin_protocol.
  split; [intros ->; reflexivity|].
  split; [intros txout rest e -> He; cbn; unfold CScript; now rewrite He|].
  split.
  - intros Hall. rewrite (overlay_marker_in_answering lib (vout tx) Hall).
    destruct (existsb _ (vout tx)) eqn:E; cbn [result fst].
    + split; [now left|]. split; [intros _|reflexivity].
      apply existsb_exists in E. destruct E as (txout & Hin & Hc).
      exists txout. split; [assumption|].
      destruct (is_opreturn lib (scriptPubKey txout)) as [[|]|e]; try discriminate Hc.
      split; [reflexivity|]. unfold has_marker in Hc.
      rewrite orb_true_iff, !bytes_contains_iff in Hc. exact Hc.
    + split; [now right|]. split; [discriminate|].
      intros (txout & Hin & Hop & Hocc).
      assert (existsb (fun txout =>
                match is_opreturn lib (scriptPubKey txout) with
                | Val true => has_marker txout
                | _ => false
                end) (vout tx) = true).
      { apply existsb_exists. exists txout. split; [assumption|]. rewrite Hop.
        unfold has_marker. rewrite orb_true_iff, !bytes_contains_iff. exact Hocc. }
      congruence.
  - destruct (overlay_marker_in_outcome lib (vout tx)) as [H|[H|[e H]]];
      rewrite H; reflexivity.
Qed.

(** ** The loops of checks 6 and 13, and check 5 *)

Lemma for_each_reject {A : Type} (xs : list A) (p : A -> bool) (r : Reason) :
  for_each xs (fun x => if p x then reject r else proceed)
  = if existsb p xs then reject r else proceed.
Proof.
  induction xs as [|x rest IH]; [reflexivity|].
  cbn [for_each existsb]. destruct (p x); cbn [orb].
  - reflexivity.
  - now rewrite and_then_proceed.
Qed.

(** X13: check 6 rejects exactly when some input has an unlocking script
    shorter than 20 bytes, in particular an empty one, and passes otherwise
    (so also when there is no input). *)
Theorem check_bytes_per_sigop_iff (tx : CTransaction) :
  ((exists txin, In txin (vin tx) /\ (List.length (scriptSig txin) < 20)%nat) ->
     check_bytes_per_sigop tx = reject ScriptSigTooSmall) /\
  ((exists txin, In txin (vin tx) /\ scriptSig txin = []) ->
     check_bytes_per_sigop tx = reject ScriptSigTooSmall) /\
  ((forall txin, In txin (vin tx) -> (20 <= List.length (scriptSig txin))%nat) ->
     check_bytes_per_sigop tx = proceed) /\
  (check_bytes_per_sigop tx = proceed ->
     forall txin, In txin (vin tx) -> (20 <= List.length (scriptSig txin))%nat).
Proof.
  unfold check_bytes_per_sigop. rewrite for_each_reject.
  assert (Hshort : (exists txin, In txin (vin tx) /\ (List.length (scriptSig txin) < 20)%nat) ->
            existsb (fun txin => len (scriptSig txin) <? MIN_BYTES_PER_SIGOP) (vin tx) = true).
  { intros (txin & Hin & Hlen). apply existsb_exists. exists txin. split; [assumption|].
    apply Z.ltb_lt. unfold len, MIN_BYTES_PER_SIGOP. lia. }
  assert (Hlong : existsb (fun txin => len (scriptSig txin) <? MIN_BYTES_PER_SIGOP) (vin tx)
                  = false ->
            forall txin, In txin (vin tx) -> (20 <= List.length (scriptSig txin))%nat).
  { intros E txin Hin.
    destruct (Nat.le_gt_cases 20 (List.length (scriptSig txin))) as [|Hlt]; [assumption|].
    rewrite Hshort in E by eauto. discriminate E. }
  repeat split.
  - intros H. now rewrite (Hshort H).
  - intros (txin & Hin & Hempty). rewrite Hshort; [reflexivity|].
    exists txin. split; [assumption|]. rewrite Hempty. cbn. lia.
  - intros H.
    destruct (existsb _ (vin tx)) eqn:E; [|reflexivity].
    apply existsb_exists in E. destruct E as (txin & Hin & Hlt).
    apply Z.ltb_lt in Hlt. unfold len, MIN_BYTES_PER_SIGOP in Hlt.
    specialize (H txin Hin). lia.
  - intros H. apply Hlong.
    destruct (existsb _ (vin tx)); [discriminate H|reflexivity].
Qed.

(** X14: check 13 either passes or rejects for ScriptTooLarge.  Outputs of
    the two hash templates never trigger it; when it rejects, some output
    has a script longer than 1650 bytes, and if that output passed check 1
    it is a data carrier. *)
Theorem check_script_size_after_check_1 (tx : CTransaction) :
  (check_script_size tx = proceed \/ check_script_size tx = reject ScriptTooLarge) /\
  ((forall txout, In txout (vout tx) ->
      classify (scriptPubKey txout) = Val PayToPubkeyHash \/
      classify (scriptPubKey txout) = Val PayToScriptHash) ->
   check_script_size tx = proceed) /\
  (check_script_size tx = reject ScriptTooLarge ->
   exists txout, In txout (vout tx) /\
     len (scriptPubKey txout) > MAX_STANDARD_SCRIPTSIG_SIZE /\
     (is_standard_script (scriptPubKey txout) = Val true ->
      classify (scriptPubKey txout) = Val DataCarrier)).
Proof.
  unfold check_script_size. rewrite for_each_reject.
  assert (Hshort : forall script,
            classify script = Val PayToPubkeyHash \/ classify script = Val PayToScriptHash ->
            len script <= 25).
  { intros script [H|H].
    - rewrite classify_closed_form in H.
      destruct (p2pkh_shape script) eqn:E.
      + apply p2pkh_shape_iff in E. unfold len. lia.
      + destruct (p2sh_shape script); [discriminate H|].
        destruct (op_return_shape script); discriminate H.
    - apply classify_p2sh_iff in H. unfold len. lia. }
  destruct (existsb _ (vout tx)) eqn:E.
  - apply existsb_exists in E. destruct E as (txout & Hin & Hlen).
    apply Z.gtb_lt in Hlen.
    split; [now right|]. split.
    + intros H. specialize (Hshort _ (H txout Hin)).
      unfold MAX_STANDARD_SCRIPTSIG_SIZE in Hlen. lia.
    + intros _. exists txout. split; [assumption|]. split; [lia|].
      intros Hstd. rewrite is_standard_script_classify in Hstd.
      pose proof (classify_closed_form (scriptPubKey txout)) as Hk.
      destruct (classify (scriptPubKey txout)) as [[| | |]|e] eqn:Hc;
        try discriminate Hstd; try reflexivity.
      * assert (len (scriptPubKey txout) <= 25) by (apply Hshort; now left).
        unfold MAX_STANDARD_SCRIPTSIG_SIZE in Hlen. lia.
      * assert (len (scriptPubKey txout) <= 25) by (apply Hshort; now right).
        unfold MAX_STANDARD_SCRIPTSIG_SIZE in Hlen. lia.
  - split; [now left|]. split; [reflexivity|]. intros H. discriminate H.
Qed.

Lemma sum_map_scaled_bounds {A : Type} (f g : A -> Z) (k : Z) (l : list A) :
  (forall x, In x l -> 0 <= f x * k <= g x) ->
  0 <= sum (map f l) * k <= sum (map g l).
Proof.
  induction l as [|x l IH]; intros H.
  - cbn. lia.
  - cbn [map]. rewrite !sum_cons.
    assert (Hx := H x (or_introl eq_refl)).
    assert (Hl : 0 <= sum (map f l) * k <= sum (map g l))
      by (apply IH; intros y Hy; apply H; now right).
    lia.
Qed.

Lemma sum_map_zero {A : Type} (l : list A) : sum (map (fun _ : A => 0) l) = 0.
Proof.
  induction l as [|x l IH]; [reflexivity|]. cbn [map]. rewrite sum_cons. lia.
Qed.

(** X15: check 5 raises what [tx.get_vsize()] raises ([AttributeError]
    where the library has no such method).  Where the call returns a virtual
    size, the size compared with the limit lies between that size and that
    size plus the total length of the unlocking scripts, and unlocking
    scripts shorter than 20 bytes add nothing; so the check passes whenever
    virtual size plus unlocking-script bytes is at most 400000 and rejects
    whenever the virtual size alone exceeds 400000. *)
Theorem check_adjusted_vsize_bounds (lib : Codec) (tx : CTransaction) :
  (forall e, get_vsize lib tx = Exn e -> check_adjusted_vsize lib tx = (Exn e, [])) /\
  (forall vsize, get_vsize lib tx = Val vsize ->
     vsize <= adjusted_vsize vsize tx
       <= vsize + sum (map (fun txin => len (scriptSig txin)) (vin tx)) /\
     ((forall txin, In txin (vin tx) -> len (scriptSig txin) < DEFAULT_BYTES_PER_SIGOP) ->
        adjusted_vsize vsize tx = vsize) /\
     check_adjusted_vsize lib tx
     = (if adjusted_vsize vsize tx >? MAX_STANDARD_TX_WEIGHT
        then reject WeightExceeded else proceed) /\
     (vsize + sum (map (fun txin => len (scriptSig txin)) (vin tx)) <= 400000 ->
        check_adjusted_vsize lib tx = proceed) /\
     (vsize > 400000 -> check_adjusted_vsize lib tx = reject WeightExceeded)).
Proof.
  split; [intros e He; unfold check_adjusted_vsize; now rewrite He|].
  intros vsize Hv.
  assert (Hb : 0 <= sum (map (fun txin => len (scriptSig txin) / DEFAULT_BYTES_PER_SIGOP)
                        (vin tx)) * DEFAULT_BYTES_PER_SIGOP
               <= sum (map (fun txin => len (scriptSig txin)) (vin tx))).
  { apply sum_map_scaled_bounds. intros txin _. unfold DEFAULT_BYTES_PER_SIGOP, len.
    pose proof (Z.mul_div_le (Z.of_nat (List.length (scriptSig txin))) 20 ltac:(lia)).
    pose proof (Z.div_pos (Z.of_nat (List.length (scriptSig txin))) 20 ltac:(lia) ltac:(lia)).
    lia. }
  assert (Hform : check_adjusted_vsize lib tx
                  = (if adjusted_vsize vsize tx >? MAX_STANDARD_TX_WEIGHT
                     then reject WeightExceeded else proceed)).
  { unfold check_adjusted_vsize, adjusted_vsize. rewrite Hv. unfold lift.
    rewrite (bind_ret_l vsize). reflexivity. }
  split; [unfold adjusted_vsize; lia|]. split; [|split; [exact Hform|split]].
  - intros Hshort. unfold adjusted_vsize.
    assert (Hz : 0 <= sum (map (fun txin => len (scriptSig txin) / DEFAULT_BYTES_PER_SIGOP)
                         (vin tx)) * DEFAULT_BYTES_PER_SIGOP
                 <= sum (map (fun _ : CTxIn => 0) (vin tx))).
    { apply sum_map_scaled_bounds. intros txin Hin. specialize (Hshort txin Hin).
      rewrite Z.div_small; [lia|]. unfold len in *. lia. }
    rewrite sum_map_zero in Hz. lia.
  - intros H. rewrite Hform. rewrite Z.gtb_ltb.
    destruct (Z.ltb_spec MAX_STANDARD_TX_WEIGHT (adjusted_vsize vsize tx)) as [Hlt|];
      [|reflexivity].
    unfold adjusted_vsize, MAX_STANDARD_TX_WEIGHT in *. lia.
  - intros H. rewrite Hform. rewrite Z.gtb_ltb.
    destruct (Z.ltb_spec MAX_STANDARD_TX_WEIGHT (adjusted_vsize vsize tx)) as [|Hge];
      [reflexivity|].
    unfold adjusted_vsize, MAX_STANDARD_TX_WEIGHT in *. lia.
Qed.

(** ** Dust *)

Lemma int_lt_float_monotone (n1 n2 : Z) (f : float) :
  n1 <= n2 -> int_lt_float n2 f = true -> int_lt_float n1 f = true.
Proof.
  unfold int_lt_float. intros Hle.
  destruct (0 <=? expo f).
  - rewrite !Z.ltb_lt. lia.
  - rewrite !Z.ltb_lt.
    pose proof (Z.pow_nonneg 2 (- expo f) ltac:(lia)). nia.
Qed.

(** X16: dust is downward closed in the value: of two outputs with the same
    serialized length, if the one with the larger value is dust at some
    rate, so is the other.  This holds for every rate and value, however
    the threshold was rounded. *)
Theorem is_dust_monotone (lib : Codec) (low high : CTxOut) (dust_relay_fee : Z) :
  len (serialize lib low) = len (serialize lib high) ->
  nValue low <= nValue high ->
  is_dust lib high dust_relay_fee = Val true ->
  is_dust lib low dust_relay_fee = Val true.
Proof.
  unfold is_dust. intros -> Hle.
  destruct (int_truediv (len (serialize lib high) * dust_relay_fee) 1000) as [f|e];
    cbn [res_bind]; [|trivial].
  intros H. injection H as H. f_equal. exact (int_lt_float_monotone _ _ f Hle H).
Qed.

Lemma is_dust_monotone_witness :
  len (serialize Sample.codec Cases.tiny_output)
    = len (serialize Sample.codec Sample.dusty_output) /\
  nValue Cases.tiny_output <= nValue Sample.dusty_output /\
  is_dust Sample.codec Sample.dusty_output DUST_RELAY_TX_FEE = Val true /\
  is_dust Sample.codec Cases.tiny_output DUST_RELAY_TX_FEE = Val true.
Proof.
  assert (H1 : len (serialize Sample.codec Cases.tiny_output)
               = len (serialize Sample.codec Sample.dusty_output)) by reflexivity.
  assert (H2 : nValue Cases.tiny_output <= nValue Sample.dusty_output)
    by (vm_compute; discriminate).
  assert (H3 : is_dust Sample.codec Sample.dusty_output DUST_RELAY_TX_FEE = Val true)
    by (vm_compute; reflexivity).
  split; [exact H1|]. split; [exact H2|]. split; [exact H3|].
  exact (is_dust_monotone Sample.codec Cases.tiny_output Sample.dusty_output
           DUST_RELAY_TX_FEE H1 H2 H3).
Defined.

(** X17: at the configured [DUST_RELAY_TX_FEE] of 3000 per 1000 bytes, an
    output is dust exactly when its value is below 3 units per serialized
    byte (for every serialization shorter than [2 ^ 42] bytes); the test
    does not raise. *)
Theorem is_dust_at_configured_rate (lib : Codec) (txout : CTxOut) :
  len (serialize lib txout) < 2 ^ 42 ->
  is_dust lib txout DUST_RELAY_TX_FEE
  = Val (nValue txout <? 3 * len (serialize lib txout)).
Proof.
  intros Hsize.
  assert (Hpos : 0 <= len (serialize lib txout)) by (unfold len; lia).
  rewrite is_dust_in_range.
  - unfold DUST_RELAY_TX_FEE. f_equal.
    destruct (Z.ltb_spec (1000 * nValue txout) (len (serialize lib txout) * 3000)),
             (Z.ltb_spec (nValue txout) (3 * len (serialize lib txout)));
      lia || reflexivity.
  - unfold DUST_RELAY_TX_FEE. change (2 ^ 44) with (4 * 2 ^ 42). lia.
Qed.

Lemma is_dust_at_configured_rate_witness :
  len (serialize Sample.codec Sample.dusty_output) < 2 ^ 42 /\
  is_dust Sample.codec Sample.dusty_output DUST_RELAY_TX_FEE
  = Val (nValue Sample.dusty_output <? 3 * len (serialize Sample.codec Sample.dusty_output)).
Proof.
  assert (H : len (serialize Sample.codec Sample.dusty_output) < 2 ^ 42)
    by (vm_compute; reflexivity).
  split; [exact H|].
  exact (is_dust_at_configured_rate Sample.codec Sample.dusty_output H).
Defined.

(** ** The page *)

(** X18: the "Check Transaction" handler never shows the success message.
    For every text that decodes to a transaction it shows the console line
    of check 1 or of check 2 followed by "Transaction does not pass one or
    more standard checks"; for a text that does not decode it shows "Error
    processing transaction: " with the exception's text. *)
Theorem page_never_reports_success
    (lib : Codec) (node : Node) (deserialize_hex : string -> decoded)
    (str : exn -> string) (tx_hex : string) :
  (forall text,
     ~ In (st_success text) (on_check_transaction lib node deserialize_hex str tx_hex)) /\
  (forall tx, deserialize_hex tx_hex = Decoded tx ->
     exists r, (r = UnrecognizedScript \/ r = PolicyDisabled) /\
       on_check_transaction lib node deserialize_hex str tx_hex
       = [Console (Printed (rejection_line r));
          st_error "Transaction does not pass one or more standard checks"]) /\
  (forall text, deserialize_hex tx_hex = DecodeError text ->
     on_check_transaction lib node deserialize_hex str tx_hex
     = [st_error ("Error processing transaction: " ++ text)%string]).
Proof.
  unfold on_check_transaction.
  destruct (deserialize_hex tx_hex) as [tx|text].
  - rewrite check_standard_tx_closed_form.
    destruct (all_standard (vout tx)); cbn; repeat split.
    + intros text [H|[H|[]]]; discriminate H.
    + intros tx' _. exists PolicyDisabled. split; [now right|reflexivity].
    + intros text H. discriminate H.
    + intros text [H|[H|[]]]; discriminate H.
    + intros tx' _. exists UnrecognizedScript. split; [now left|reflexivity].
    + intros text H. discriminate H.
  - repeat split.
    + intros text' [H|[]]. discriminate H.
    + intros tx H. discriminate H.
    + intros text' H. injection H as <-. reflexivity.
Qed.

(** ** Witnesses for the fee lookups *)

Lemma get_transaction_fee_index_error_witness :
  vin (Cases.three_inputs Cases.stray_input)
    = [Sample.spend_input] ++ Cases.stray_input :: [Sample.spend_input] /\
  spent_values Sample.node [Sample.spend_input] = Some [50000] /\
  getrawtransaction Sample.node (hex (prevout_hash (prevout Cases.stray_input)))
    = Reply Sample.funding_tx /\
  (List.length (vout Sample.funding_tx) <= prevout_n (prevout Cases.stray_input))%nat /\
  result (get_transaction_fee Sample.node (Cases.three_inputs Cases.stray_input))
    = Exn IndexError.
Proof.
  assert (H : (List.length (vout Sample.funding_tx)
               <= prevout_n (prevout Cases.stray_input))%nat) by (cbn; lia).
  do 3 (split; [reflexivity|]). split; [exact H|].
  pose proof (get_transaction_fee_index_error Sample.codec Sample.node
                (Cases.three_inputs Cases.stray_input)
                [Sample.spend_input] Cases.stray_input [Sample.spend_input]
                [50000] Sample.funding_tx eq_refl eq_refl eq_refl H) as [Hfee _].
  rewrite Hfee. reflexivity.
Defined.

Lemma get_transaction_fee_stops_at_first_error_witness :
  vin (Cases.three_inputs Cases.unknown_input)
    = [Sample.spend_input] ++ Cases.unknown_input :: [Sample.spend_input] /\
  spent_values Cases.partial_node [Sample.spend_input] = Some [50000] /\
  getrawtransaction Cases.partial_node (hex (prevout_hash (prevout Cases.unknown_input)))
    = JSONRPCException "No such mempool or blockchain transaction" /\
  count_requests (trace (get_transaction_fee Cases.partial_node
                           (Cases.three_inputs Cases.unknown_input))) = 2%nat.
Proof.
  do 3 (split; [reflexivity|]).
  exact (proj2 (get_transaction_fee_stops_at_first_error Cases.partial_node
                  (Cases.three_inputs Cases.unknown_input)
                  [Sample.spend_input] Cases.unknown_input [Sample.spend_input]
                  [50000] "No such mempool or blockchain transaction"
                  eq_refl eq_refl eq_refl)).
Defined.

(** ** Unreachable checks, and payments to script hashes *)

(** X19: checks 5 to 13 cannot be reached even past check 2: whatever
    follows checks 3 and 4 in sequence is never run, because check 3 either
    returns [False] or passes, and check 4 returns [False] or raises.  The
    run of checks 3 and 4 followed by anything is the same as their run
    followed by nothing, and it never ends in [True]. *)
Theorem checks_after_fee_rate_are_unreachable
    (lib : Codec) (node : Node) (tx : CTransaction) (rest : check) :
  and_then (check_overlay lib tx) (and_then (check_fee_rate lib node tx) rest)
  = and_then (check_overlay lib tx) (check_fee_rate lib node tx) /\
  (result (and_then (check_overlay lib tx) (and_then (check_fee_rate lib node tx) rest))
   = Val (Some false) \/
   exists e,
     result (and_then (check_overlay lib tx) (and_then (check_fee_rate lib node tx) rest))
     = Exn e).
Proof.
  assert (Hfee : and_then (check_fee_rate lib node tx) rest = check_fee_rate lib node tx).
  { destruct (check_fee_rate_result lib node tx) as [H|[e H]];
      destruct (check_fee_rate lib node tx) as [r t]; cbn in H; subst r;
      unfold and_then; cbn; now rewrite ?app_nil_r. }
  split; [now rewrite Hfee|]. apply checks_3_4_result.
Qed.

(** X20: a transaction paying to the usual pay-to-script-hash script,
    [HASH160 <20-byte hash> EQUAL], is rejected by check 1 as an
    unrecognised receiver script, for every hash, codec and node. *)
Theorem p2sh_payment_is_rejected
    (lib : Codec) (node : Node) (tx : CTransaction) (txout : CTxOut) (h : bytes) :
  List.length h = 20%nat ->
  In txout (vout tx) ->
  scriptPubKey txout = p2sh_script h ->
  classify (scriptPubKey txout) = Val Unrecognized /\
  check_standard_tx lib node tx = run_of (Reject UnrecognizedScript).
Proof.
  intros Hh Hin Hscript.
  assert (Hu : classify (scriptPubKey txout) = Val Unrecognized)
    by (rewrite Hscript; now apply p2sh_script_unrecognized).
  split; [exact Hu|].
  rewrite check_standard_tx_closed_form.
  assert (E : all_standard (vout tx) = false)
    by (apply all_standard_false_iff; eauto).
  now rewrite E.
Qed.

Lemma p2sh_payment_is_rejected_witness :
  List.length Sample.zero_hash = 20%nat /\
  check_standard_tx Sample.codec Sample.node
    {| nVersion := 1; vin := [Sample.spend_input];
       vout := [ {| nValue := 49000; scriptPubKey := p2sh_script Sample.zero_hash |} ];
       nLockTime := 0 |}
  = run_of (Reject UnrecognizedScript).
Proof.
  split; [reflexivity|].
  exact (proj2 (p2sh_payment_is_rejected Sample.codec Sample.node
                  {| nVersion := 1; vin := [Sample.spend_input];
                     vout := [ {| nValue := 49000;
                                  scriptPubKey := p2sh_script Sample.zero_hash |} ];
                     nLockTime := 0 |}
                  {| nValue := 49000; scriptPubKey := p2sh_script Sample.zero_hash |}
                  Sample.zero_hash eq_refl (or_introl eq_refl) eq_refl)).
Defined.
